(** * Lookup operations of the VFS back end (src/FSAL/FSAL_VFS/fsal_lookup.c)

    The three entry points of the file, [VFSFSAL_lookup],
    [VFSFSAL_lookupPath] and [VFSFSAL_lookupJunction], are embedded as
    computations in a state monad with early return.  The state is what a
    call can change: [errno], the cells behind the two output pointers,
    and the log of the calls made to the rest of the library and to the
    operating system.  The functions and constants the file uses but does
    not define are the fields of the class [Collaborators]. *)

From Stdlib Require Import ZArith List String Ascii Bool Lia.
From ExtLib Require Import Structures.Monad Structures.MonadState Structures.MonadExc.
From ExtLib Require Import Data.Monads.StateMonad Data.Monads.EitherMonad.
Import ListNotations.
Import MonadNotation.
Local Open Scope monad_scope.
Local Open Scope Z_scope.

(** ** Data *)

(** Major codes of [fsal_status_t].  The first seven are the ones
    fsal_lookup.c names; NOENT, ACCESS and IO are the members behind the
    NotFound, AccessDenied and I/O kinds; every other member of the
    enumeration (declared in a header outside this file) is
    [ERR_FSAL_other]. *)
Inductive fsal_errors_t : Type :=
| ERR_FSAL_NO_ERROR
| ERR_FSAL_FAULT
| ERR_FSAL_INVAL
| ERR_FSAL_STALE
| ERR_FSAL_XDEV
| ERR_FSAL_NOTDIR
| ERR_FSAL_SERVERFAULT
| ERR_FSAL_NOENT
| ERR_FSAL_ACCESS
| ERR_FSAL_IO
| ERR_FSAL_other (code : Z).

Record fsal_status_t : Type := mk_status { major : fsal_errors_t; minor : Z }.

(** Modelled from the spec: the macro [FSAL_IS_ERROR] comes from a header
    that is not among the sources; a status is an error unless it is "the
    no-error success status", that is unless its major code is
    ERR_FSAL_NO_ERROR. *)
Definition FSAL_IS_ERROR (status : fsal_status_t) : bool :=
  match major status with
  | ERR_FSAL_NO_ERROR => false
  | _ => true
  end.

(** Object kinds.  The five named members are the cases of the switch in
    [VFSFSAL_lookup]; [FSAL_TYPE_other] is any value that reaches its
    [default] branch. *)
Inductive fsal_nodetype_t : Type :=
| FSAL_TYPE_DIR
| FSAL_TYPE_JUNCTION
| FSAL_TYPE_FILE
| FSAL_TYPE_LNK
| FSAL_TYPE_XATTR
| FSAL_TYPE_other (raw : Z).

(** [vfs_file_handle_t]: the length field the lookup sets before calling
    the kernel, the handle type and the opaque bytes. *)
Record vfs_file_handle_t : Type := mk_vfs_handle {
  handle_bytes : Z;
  handle_type : Z;
  f_handle : list Z
}.

(** [vfsfsal_handle_t]; the only member used is [data.vfs_handle]. *)
Record vfsfsal_handle_t : Type := mk_handle { data_vfs_handle : vfs_file_handle_t }.

Record vfsfsal_export_context_t : Type := mk_export { root_handle : vfs_file_handle_t }.

(** [vfsfsal_op_context_t]: the export context and the identity the call
    runs under. *)
Record vfsfsal_op_context_t : Type := mk_context {
  export_context : vfsfsal_export_context_t;
  credential : Z
}.

Record fsal_name_t : Type := mk_name { name : string }.
Record fsal_path_t : Type := mk_path { path : string }.

(** [fsal_attrib_list_t]: the request mask and the attribute values. *)
Record fsal_attrib_list_t : Type := mk_attrs {
  asked_attributes : Z;
  attr_values : list Z
}.

(** The fields of [struct stat] the lookup and the access check read. *)
Record stat : Type := mk_stat { st_mode : Z; st_ino : Z; st_uid : Z; st_gid : Z }.

(** [h.handle_bytes = n] *)
Definition with_handle_bytes (n : Z) (h : vfs_file_handle_t) : vfs_file_handle_t :=
  mk_vfs_handle n (handle_type h) (f_handle h).

(** The values of <errno.h> and <fcntl.h> on Linux. *)
Definition ENOENT : Z := 2.
Definition O_RDONLY : Z := 0.

(** Modelled from the spec: the mask macros come from a header that is
    not among the sources; by section 4.1 (step 6) the mask "is cleared"
    (no bit left) and then receives "a single marker bit". *)
Definition FSAL_CLEAR_MASK (_ : Z) : Z := 0.
Definition FSAL_SET_MASK (mask attr : Z) : Z := Z.lor mask attr.

(** ** Calls that leave the file *)

Inductive event : Type :=
| TakeTokenFSCall
| ReleaseTokenFSCall
| Ev_handle2fd (h : vfsfsal_handle_t)
| Ev_fstat (fd : Z)
| Ev_close (fd : Z)
| Ev_testAccess (buffstat : stat)
| Ev_name_by_handle_at (fd : Z) (filename : string)
| Ev_getattrs (h : vfsfsal_handle_t)
| Ev_Path2Handle (p : fsal_path_t).

(** What fsal_lookup.c uses and does not define.  A system call is given
    by its return code, the value of [errno] after it and what it writes
    through its pointer argument. *)
Class Collaborators : Type := {
  VFS_HANDLE_LEN : Z;
  FSAL_ATTR_RDATTR_ERR : Z;
  FSAL_X_OK : Z;
  posix2fsal_error : Z -> fsal_errors_t;
  posix2fsal_type : Z -> fsal_nodetype_t;
  fsal_internal_handle2fd :
    vfsfsal_op_context_t -> vfsfsal_handle_t -> Z -> fsal_status_t * Z;
  fstat : Z -> Z * Z * stat;
  fsal_internal_testAccess : vfsfsal_op_context_t -> Z -> stat -> fsal_status_t;
  vfs_name_by_handle_at :
    Z -> string -> vfs_file_handle_t -> Z * Z * vfs_file_handle_t;
  VFSFSAL_getattrs :
    vfsfsal_handle_t -> vfsfsal_op_context_t -> fsal_attrib_list_t ->
    fsal_status_t * fsal_attrib_list_t;
  fsal_internal_Path2Handle :
    vfsfsal_op_context_t -> fsal_path_t -> vfsfsal_handle_t ->
    fsal_status_t * vfsfsal_handle_t
}.

(** ** The monad *)

(** [object_handle] and [object_attributes] are the cells behind the
    output pointers of the call; [None] is the null pointer. *)
Record frame : Type := mk_frame {
  errno : Z;
  calls : list event;
  object_handle : option vfsfsal_handle_t;
  object_attributes : option fsal_attrib_list_t
}.

Definition fsal_m : Type -> Type := eitherT fsal_status_t (state frame).

(** A whole function: it leaves only through [Return] or [ReturnStatus]. *)
Definition fsal_call : Type := fsal_m Empty_set.

Definition emit (e : event) : fsal_m unit :=
  modify (fun s => mk_frame (errno s) (calls s ++ [e]) (object_handle s)
                            (object_attributes s)) ;;
  ret tt.

Definition set_errno (e : Z) : fsal_m unit :=
  modify (fun s => mk_frame e (calls s) (object_handle s) (object_attributes s)) ;;
  ret tt.

Definition store_handle (h : vfsfsal_handle_t) : fsal_m unit :=
  modify (fun s => mk_frame (errno s) (calls s) (Some h) (object_attributes s)) ;;
  ret tt.

Definition store_attributes (a : fsal_attrib_list_t) : fsal_m unit :=
  modify (fun s => mk_frame (errno s) (calls s) (object_handle s) (Some a)) ;;
  ret tt.

(** Modelled from the spec: the macros [Return] and [ReturnStatus] come
    from a header that is not among the sources; by section 7 "every
    error is returned to the immediate caller as a typed result", here
    the status built from the major and minor codes, which ends the
    function. *)
Definition ReturnStatus {A : Type} (status : fsal_status_t) : fsal_m A := raise status.
Definition Return {A : Type} (code : fsal_errors_t) (min : Z) : fsal_m A :=
  ReturnStatus (mk_status code min).

Definition when_ (b : bool) (m : fsal_m unit) : fsal_m unit :=
  if b then m else ret tt.

(** The frame on entry: the caller's cells, and nothing called yet. *)
Definition entry_frame (p_object_handle : option vfsfsal_handle_t)
    (p_object_attributes : option fsal_attrib_list_t) : frame :=
  mk_frame 0 [] p_object_handle p_object_attributes.

(** Run a call on the caller's output cells: the status handed back and
    the frame it leaves. *)
Definition call (m : fsal_call) (p_object_handle : option vfsfsal_handle_t)
    (p_object_attributes : option fsal_attrib_list_t) : fsal_status_t * frame :=
  match runState (unEitherT m) (entry_frame p_object_handle p_object_attributes) with
  | (inl status, s) => (status, s)
  | (inr impossible, _) => match impossible with end
  end.

(** ** The functions of fsal_lookup.c *)

Section Lookup.
Context {C : Collaborators}.

Definition close (fd : Z) : fsal_m unit := emit (Ev_close fd).

(** The block "get attributes, if asked", which the file repeats after
    each of its three ways of obtaining a handle. *)
Definition get_object_attributes (h : vfsfsal_handle_t)
    (p_context : vfsfsal_op_context_t) : fsal_m unit :=
  p_object_attributes <- gets object_attributes ;;
  match p_object_attributes with
  | None => ret tt
  | Some attrs =>
      emit (Ev_getattrs h) ;;
      let '(status, attrs') := VFSFSAL_getattrs h p_context attrs in
      store_attributes attrs' ;;
      when_ (FSAL_IS_ERROR status)
        (store_attributes
           (mk_attrs
              (FSAL_SET_MASK (FSAL_CLEAR_MASK (asked_attributes attrs'))
                             FSAL_ATTR_RDATTR_ERR)
              (attr_values attrs')))
  end.

(** [errsv] is the local of that name: it is declared and never assigned,
    so the value the function reads from it is whatever the caller's
    stack left there, an input of the model. *)
Definition VFSFSAL_lookup
    (p_parent_directory_handle : option vfsfsal_handle_t)
    (p_filename : option fsal_name_t)
    (p_context : option vfsfsal_op_context_t)
    (errsv : Z) : fsal_call :=
  p_object_handle <- gets object_handle ;;
  match p_object_handle, p_context with
  | Some object, Some context =>
      match p_parent_directory_handle, p_filename with
      | Some _, None | None, Some _ => Return ERR_FSAL_FAULT 0
      | None, None =>
          (* Copy the root handle *)
          let object' := mk_handle (root_handle (export_context context)) in
          store_handle object' ;;
          get_object_attributes object' context ;;
          Return ERR_FSAL_NO_ERROR 0
      | Some parent, Some filename =>
          (* retrieve directory attributes *)
          emit TakeTokenFSCall ;;
          emit (Ev_handle2fd parent) ;;
          let '(status, parentfd) :=
            fsal_internal_handle2fd context parent O_RDONLY in
          emit ReleaseTokenFSCall ;;
          when_ (FSAL_IS_ERROR status) (ReturnStatus status) ;;
          (* get directory metadata *)
          emit TakeTokenFSCall ;;
          emit (Ev_fstat parentfd) ;;
          let '(rc, e, buffstat) := fstat parentfd in
          set_errno e ;;
          errsrv <- gets errno ;;
          emit ReleaseTokenFSCall ;;
          when_ (negb (rc =? 0))
            (close parentfd ;;
             if errsv =? ENOENT
             then Return ERR_FSAL_STALE errsv
             else Return (posix2fsal_error errsv) errsv) ;;
          (* Be careful about junction crossing, symlinks, hardlinks,... *)
          match posix2fsal_type (st_mode buffstat) with
          | FSAL_TYPE_DIR => ret tt
          | FSAL_TYPE_JUNCTION => close parentfd ;; Return ERR_FSAL_XDEV 0
          | FSAL_TYPE_FILE | FSAL_TYPE_LNK | FSAL_TYPE_XATTR =>
              close parentfd ;; Return ERR_FSAL_NOTDIR 0
          | FSAL_TYPE_other _ => close parentfd ;; Return ERR_FSAL_SERVERFAULT 0
          end ;;
          (* LogFullDebug: the trace message is not part of the model *)
          (* check rights to enter into the directory *)
          emit (Ev_testAccess buffstat) ;;
          let status := fsal_internal_testAccess context FSAL_X_OK buffstat in
          when_ (FSAL_IS_ERROR status) (ReturnStatus status) ;;
          (* get file handle, if it exists *)
          emit TakeTokenFSCall ;;
          let sized := with_handle_bytes VFS_HANDLE_LEN (data_vfs_handle object) in
          store_handle (mk_handle sized) ;;
          emit (Ev_name_by_handle_at parentfd (name filename)) ;;
          let '(rc, e, found) :=
            vfs_name_by_handle_at parentfd (name filename) sized in
          store_handle (mk_handle found) ;;
          set_errno e ;;
          when_ (negb (rc =? 0))
            (errsrv <- gets errno ;;
             emit ReleaseTokenFSCall ;;
             close parentfd ;;
             Return (posix2fsal_error errsrv) errsrv) ;;
          emit ReleaseTokenFSCall ;;
          close parentfd ;;
          (* get object attributes *)
          get_object_attributes (mk_handle found) context ;;
          (* lookup complete ! *)
          Return ERR_FSAL_NO_ERROR 0
      end
  | _, _ => Return ERR_FSAL_FAULT 0
  end.

(** [p_path->path[0]]; the buffer of an empty path starts with NUL. *)
Definition first_char (p : fsal_path_t) : ascii :=
  match path p with
  | String c _ => c
  | EmptyString => zero
  end.

Definition VFSFSAL_lookupPath
    (p_path : option fsal_path_t)
    (p_context : option vfsfsal_op_context_t) : fsal_call :=
  p_object_handle <- gets object_handle ;;
  match p_object_handle, p_context, p_path with
  | Some object, Some context, Some pth =>
      (* test whether the path begins with a slash *)
      when_ (negb (Ascii.eqb (first_char pth) "/"%char))
        (Return ERR_FSAL_INVAL 0) ;;
      (* directly call the lookup function *)
      emit (Ev_Path2Handle pth) ;;
      let '(status, found) := fsal_internal_Path2Handle context pth object in
      store_handle found ;;
      when_ (FSAL_IS_ERROR status) (ReturnStatus status) ;;
      (* get object attributes *)
      get_object_attributes found context ;;
      Return ERR_FSAL_NO_ERROR 0
  | _, _, _ => Return ERR_FSAL_FAULT 0
  end.

(** Every statement of the body but the last is commented out in the
    source; the test of [p_fsroot_attributes] guards an empty block. *)
Definition VFSFSAL_lookupJunction
    (p_junction_handle : option vfsfsal_handle_t)
    (p_context : option vfsfsal_op_context_t) : fsal_call :=
  p_fsroot_attributes <- gets object_attributes ;;
  match p_fsroot_attributes with
  | Some _ => ret tt
  | None => ret tt
  end ;;
  (* lookup complete ! *)
  Return ERR_FSAL_NO_ERROR 0.

End Lookup.

(** ** Vocabulary of the statements *)

Section Vocabulary.
Context {C : Collaborators}.

(** The calls logged once the parent has been opened, and once its
    metadata has been read. *)
Definition opened (parent : vfsfsal_handle_t) : list event :=
  [TakeTokenFSCall; Ev_handle2fd parent; ReleaseTokenFSCall].

Definition statted (parent : vfsfsal_handle_t) (parentfd : Z) : list event :=
  opened parent ++ [TakeTokenFSCall; Ev_fstat parentfd; ReleaseTokenFSCall].

(** The calls logged by the name lookup itself. *)
Definition looked_up (parentfd : Z) (filename : fsal_name_t) : list event :=
  [TakeTokenFSCall; Ev_name_by_handle_at parentfd (name filename);
   ReleaseTokenFSCall; Ev_close parentfd].

(** What the attribute block logs and leaves, by the pointer it is given. *)
Definition attr_calls (h : vfsfsal_handle_t)
    (p_object_attributes : option fsal_attrib_list_t) : list event :=
  match p_object_attributes with
  | None => []
  | Some _ => [Ev_getattrs h]
  end.

Definition attrs_after (h : vfsfsal_handle_t) (p_context : vfsfsal_op_context_t)
    (p_object_attributes : option fsal_attrib_list_t) : option fsal_attrib_list_t :=
  match p_object_attributes with
  | None => None
  | Some attrs =>
      let '(status, attrs') := VFSFSAL_getattrs h p_context attrs in
      Some (if FSAL_IS_ERROR status
            then mk_attrs FSAL_ATTR_RDATTR_ERR (attr_values attrs')
            else attrs')
  end.

(** A result whose handle is [h] and whose attributes are marked
    unreadable: success, and a mask that is the marker bit alone. *)
Definition degraded (r : fsal_status_t * frame) (h : vfsfsal_handle_t) : Prop :=
  fst r = mk_status ERR_FSAL_NO_ERROR 0 /\
  object_handle (snd r) = Some h /\
  exists attrs', object_attributes (snd r) = Some attrs' /\
                 asked_attributes attrs' = FSAL_ATTR_RDATTR_ERR.

End Vocabulary.

Definition is_close (fd : Z) (e : event) : bool :=
  match e with
  | Ev_close fd' => fd' =? fd
  | _ => false
  end.

(** How many times [fd] is closed in a log. *)
Definition close_count (fd : Z) (log : list event) : nat :=
  List.length (filter (is_close fd) log).

Definition is_testAccess (e : event) : bool :=
  match e with
  | Ev_testAccess _ => true
  | _ => false
  end.

(** The discipline of the call token over a log, [held] telling whether
    the token is held when the log starts: it is taken only when free and
    released only when held, the three file-system calls
    ([fsal_internal_handle2fd], [fstat], [vfs_name_by_handle_at]) are made
    while it is held, and it is free when the log ends. *)
Fixpoint gated (held : bool) (log : list event) : bool :=
  match log with
  | [] => negb held
  | TakeTokenFSCall :: rest => negb held && gated true rest
  | ReleaseTokenFSCall :: rest => held && gated false rest
  | Ev_handle2fd _ :: rest
  | Ev_fstat _ :: rest
  | Ev_name_by_handle_at _ _ :: rest => held && gated held rest
  | _ :: rest => gated held rest
  end.

(** Modelled from the spec: [posix2fsal_error] is defined in
    fsal_convert.c, which is not among the sources.  Sections 4.1 (step 5)
    and 7 fix the row of its table that the lookup relies on: the "no such
    object" code of the name-lookup primitive is the NotFound kind. *)
Definition ErrorMapper_NotFound (C : Collaborators) : Prop :=
  @posix2fsal_error C ENOENT = ERR_FSAL_NOENT.

(** ** A small export to run the functions on *)

Module Fixture.

Definition EACCES : Z := 13.
Definition ESTALE : Z := 116.
Definition EIO : Z := 5.

(** Modelled from the spec: [posix2fsal_error] (fsal_convert.c, not among
    the sources) with the kinds of section 7: "no such object" is
    NotFound, a stale handle StaleHandle, a refused access AccessDenied,
    and any other code an underlying I/O error. *)
Definition ErrorMapper (e : Z) : fsal_errors_t :=
  if e =? ENOENT then ERR_FSAL_NOENT
  else if e =? ESTALE then ERR_FSAL_STALE
  else if e =? EACCES then ERR_FSAL_ACCESS
  else ERR_FSAL_IO.

Definition S_IFMT : Z := 61440.   (* 0170000 *)
Definition S_IFDIR : Z := 16384.  (* 0040000 *)
Definition S_IFREG : Z := 32768.  (* 0100000 *)
Definition S_IFLNK : Z := 40960.  (* 0120000 *)

Definition kind_of_mode (mode : Z) : fsal_nodetype_t :=
  let fmt := Z.land mode S_IFMT in
  if fmt =? S_IFDIR then FSAL_TYPE_DIR
  else if fmt =? S_IFREG then FSAL_TYPE_FILE
  else if fmt =? S_IFLNK then FSAL_TYPE_LNK
  else FSAL_TYPE_other fmt.

(** Objects are numbered; the handle of object [i] carries [i] as its
    only byte and opens as descriptor [100 + i].
    - 1: the root directory, owned by user 0, mode 0700;
    - 2: a regular file;
    - 3: the directory "etc" of the root;
    - 9: an object removed after its handle was handed out. *)
Definition handle_of (i : Z) : vfsfsal_handle_t := mk_handle (mk_vfs_handle 8 1 [i]).

Definition open_by_handle (_ : vfsfsal_op_context_t) (h : vfsfsal_handle_t)
    (_ : Z) : fsal_status_t * Z :=
  match f_handle (data_vfs_handle h) with
  | [i] => (mk_status ERR_FSAL_NO_ERROR 0, 100 + i)
  | _ => (mk_status ERR_FSAL_STALE ESTALE, -1)
  end.

Definition stat_of (fd : Z) : Z * Z * stat :=
  if fd =? 109 then (-1, ENOENT, mk_stat 0 0 0 0)
  else if fd =? 102 then (0, 0, mk_stat (S_IFREG + 420) 2 0 0)
  else (0, 0, mk_stat (S_IFDIR + 448) (fd - 100) 0 0).

(** Traversal is granted to the owner and to user 0. *)
Definition test_access (ctx : vfsfsal_op_context_t) (_ : Z) (st : stat) : fsal_status_t :=
  if (credential ctx =? st_uid st) || (credential ctx =? 0)
  then mk_status ERR_FSAL_NO_ERROR 0
  else mk_status ERR_FSAL_ACCESS 0.

Definition name_to_handle (fd : Z) (nm : string) (h : vfs_file_handle_t)
    : Z * Z * vfs_file_handle_t :=
  if (fd =? 101) && String.eqb nm "etc"
  then (0, 0, data_vfs_handle (handle_of 3))
  else (-1, ENOENT, h).

(** Attribute 5 cannot be read on this export. *)
Definition get_attrs (h : vfsfsal_handle_t) (_ : vfsfsal_op_context_t)
    (a : fsal_attrib_list_t) : fsal_status_t * fsal_attrib_list_t :=
  if Z.testbit (asked_attributes a) 5
  then (mk_status ERR_FSAL_IO EIO, a)
  else (mk_status ERR_FSAL_NO_ERROR 0,
        mk_attrs (asked_attributes a) (f_handle (data_vfs_handle h))).

Definition path_to_handle (_ : vfsfsal_op_context_t) (p : fsal_path_t)
    (h : vfsfsal_handle_t) : fsal_status_t * vfsfsal_handle_t :=
  if String.eqb (path p) "/" then (mk_status ERR_FSAL_NO_ERROR 0, handle_of 1)
  else if String.eqb (path p) "/etc" then (mk_status ERR_FSAL_NO_ERROR 0, handle_of 3)
  else (mk_status ERR_FSAL_NOENT ENOENT, h).

Definition export : Collaborators := {|
  VFS_HANDLE_LEN := 10;
  FSAL_ATTR_RDATTR_ERR := 2147483648;
  FSAL_X_OK := 1;
  posix2fsal_error := ErrorMapper;
  posix2fsal_type := kind_of_mode;
  fsal_internal_handle2fd := open_by_handle;
  fstat := stat_of;
  fsal_internal_testAccess := test_access;
  vfs_name_by_handle_at := name_to_handle;
  VFSFSAL_getattrs := get_attrs;
  fsal_internal_Path2Handle := path_to_handle
|}.

(** The context of user [uid] on this export. *)
Definition context_of (uid : Z) : vfsfsal_op_context_t :=
  mk_context (mk_export (data_vfs_handle (handle_of 1))) uid.

(** An output cell as a caller would hand it in: all zero. *)
Definition blank : vfsfsal_handle_t := mk_handle (mk_vfs_handle 0 0 []).

(** User [uid] looks [nm] up in object [parent], with [errsv] on the
    stack, a blank output cell and the attribute pointer [attrs]. *)
Definition lookup_as (uid parent : Z) (nm : string) (errsv : Z)
    (attrs : option fsal_attrib_list_t) : fsal_status_t * frame :=
  call (@VFSFSAL_lookup export (Some (handle_of parent)) (Some (mk_name nm))
          (Some (context_of uid)) errsv)
       (Some blank) attrs.

(** A request for attribute 5 alone. *)
Definition unreadable : fsal_attrib_list_t := mk_attrs 32 [].

(** A request for attribute 0 alone, which this export can read. *)
Definition readable : fsal_attrib_list_t := mk_attrs 1 [].

(** User [uid] resolves the path [p] into a blank output cell. *)
Definition lookupPath_as (uid : Z) (p : string)
    (attrs : option fsal_attrib_list_t) : fsal_status_t * frame :=
  call (@VFSFSAL_lookupPath export (Some (mk_path p)) (Some (context_of uid)))
       (Some blank) attrs.

End Fixture.

(** ** Exit paths

    One equation per way out of a function: the status it hands back and
    the frame it leaves, under the conditions that select the path. *)

Section ExitPaths.
Context {C : Collaborators}.

Lemma get_object_attributes_run h p_context s :
  runState (unEitherT (get_object_attributes h p_context)) s =
  (inr tt,
   mk_frame (errno s) (calls s ++ attr_calls h (object_attributes s))
            (object_handle s) (attrs_after h p_context (object_attributes s))).
Proof.
  unfold get_object_attributes, attrs_after, attr_calls.
  destruct s as [en log cell [attrs|]]; cbn.
  - destruct (VFSFSAL_getattrs h p_context attrs) as [status attrs']; cbn.
    destruct (FSAL_IS_ERROR status); reflexivity.
  - rewrite app_nil_r. reflexivity.
Qed.

#[local] Arguments get_object_attributes : simpl never.

Ltac enter := unfold call, VFSFSAL_lookup, VFSFSAL_lookupPath; cbn.
Ltac along H := rewrite H; cbn.

Lemma lookup_null_output pp pf pc errsv attrs :
  call (VFSFSAL_lookup pp pf pc errsv) None attrs =
  (mk_status ERR_FSAL_FAULT 0, entry_frame None attrs).
Proof. reflexivity. Qed.

Lemma lookup_null_context pp pf errsv cell attrs :
  call (VFSFSAL_lookup pp pf None errsv) cell attrs =
  (mk_status ERR_FSAL_FAULT 0, entry_frame cell attrs).
Proof. destruct cell; reflexivity. Qed.

Lemma lookup_name_missing parent pc errsv cell attrs :
  call (VFSFSAL_lookup (Some parent) None pc errsv) cell attrs =
  (mk_status ERR_FSAL_FAULT 0, entry_frame cell attrs).
Proof. destruct cell, pc; reflexivity. Qed.

Lemma lookup_parent_missing filename pc errsv cell attrs :
  call (VFSFSAL_lookup None (Some filename) pc errsv) cell attrs =
  (mk_status ERR_FSAL_FAULT 0, entry_frame cell attrs).
Proof. destruct cell, pc; reflexivity. Qed.

Lemma lookup_root_path context errsv object attrs :
  let root := mk_handle (root_handle (export_context context)) in
  call (VFSFSAL_lookup None None (Some context) errsv) (Some object) attrs =
  (mk_status ERR_FSAL_NO_ERROR 0,
   mk_frame 0 (attr_calls root attrs) (Some root) (attrs_after root context attrs)).
Proof. enter. rewrite get_object_attributes_run. reflexivity. Qed.

Section Opened.
Variables (parent : vfsfsal_handle_t) (filename : fsal_name_t).
Variables (context : vfsfsal_op_context_t) (errsv : Z).
Variables (object : vfsfsal_handle_t) (attrs : option fsal_attrib_list_t).
Variables (status : fsal_status_t) (parentfd : Z).
Hypothesis Hopen :
  fsal_internal_handle2fd context parent O_RDONLY = (status, parentfd).

Let lookup : fsal_status_t * frame :=
  call (VFSFSAL_lookup (Some parent) (Some filename) (Some context) errsv)
       (Some object) attrs.

Lemma lookup_open_fails :
  FSAL_IS_ERROR status = true ->
  lookup = (status, mk_frame 0 (opened parent) (Some object) attrs).
Proof. intros Herr. subst lookup. enter. along Hopen. along Herr. reflexivity. Qed.

Section Live.
Hypothesis Hlive : FSAL_IS_ERROR status = false.
Variables (rc e : Z) (buffstat : stat).
Hypothesis Hstat : fstat parentfd = (rc, e, buffstat).

Lemma lookup_fstat_fails :
  rc <> 0 ->
  lookup =
  (mk_status (if errsv =? ENOENT then ERR_FSAL_STALE else posix2fsal_error errsv)
             errsv,
   mk_frame e (statted parent parentfd ++ [Ev_close parentfd]) (Some object) attrs).
Proof.
  intros Hrc. apply Z.eqb_neq in Hrc.
  subst lookup. enter. along Hopen. along Hlive. along Hstat. along Hrc.
  destruct (errsv =? ENOENT); reflexivity.
Qed.

Section Statted.
Hypothesis Hrc : rc = 0.

Lemma lookup_wrong_kind :
  posix2fsal_type (st_mode buffstat) <> FSAL_TYPE_DIR ->
  lookup =
  (mk_status
     match posix2fsal_type (st_mode buffstat) with
     | FSAL_TYPE_JUNCTION => ERR_FSAL_XDEV
     | FSAL_TYPE_FILE | FSAL_TYPE_LNK | FSAL_TYPE_XATTR => ERR_FSAL_NOTDIR
     | _ => ERR_FSAL_SERVERFAULT
     end 0,
   mk_frame e (statted parent parentfd ++ [Ev_close parentfd]) (Some object) attrs).
Proof.
  intros Hkind. subst lookup rc. enter. along Hopen. along Hlive. along Hstat.
  destruct (posix2fsal_type (st_mode buffstat)); try reflexivity.
  now elim Hkind.
Qed.

Section Directory.
Hypothesis Hdir : posix2fsal_type (st_mode buffstat) = FSAL_TYPE_DIR.

Lemma lookup_denied :
  FSAL_IS_ERROR (fsal_internal_testAccess context FSAL_X_OK buffstat) = true ->
  lookup =
  (fsal_internal_testAccess context FSAL_X_OK buffstat,
   mk_frame e (statted parent parentfd ++ [Ev_testAccess buffstat])
            (Some object) attrs).
Proof.
  intros Hacc. subst lookup rc. enter. along Hopen. along Hlive. along Hstat.
  along Hdir. along Hacc. reflexivity.
Qed.

Section Granted.
Hypothesis Hacc :
  FSAL_IS_ERROR (fsal_internal_testAccess context FSAL_X_OK buffstat) = false.
Variables (rc' e' : Z) (found : vfs_file_handle_t).
Hypothesis Hname :
  vfs_name_by_handle_at parentfd (name filename)
    (with_handle_bytes VFS_HANDLE_LEN (data_vfs_handle object)) = (rc', e', found).

Lemma lookup_name_fails :
  rc' <> 0 ->
  lookup =
  (mk_status (posix2fsal_error e') e',
   mk_frame e'
     (statted parent parentfd ++ Ev_testAccess buffstat :: looked_up parentfd filename)
     (Some (mk_handle found)) attrs).
Proof.
  intros Hrc'. apply Z.eqb_neq in Hrc'.
  subst lookup rc. enter. along Hopen. along Hlive. along Hstat.
  along Hdir. along Hacc. along Hname. along Hrc'. reflexivity.
Qed.

Lemma lookup_found :
  rc' = 0 ->
  lookup =
  (mk_status ERR_FSAL_NO_ERROR 0,
   mk_frame e'
     (statted parent parentfd ++ Ev_testAccess buffstat :: looked_up parentfd filename
        ++ attr_calls (mk_handle found) attrs)
     (Some (mk_handle found)) (attrs_after (mk_handle found) context attrs)).
Proof.
  intros Hrc'. subst lookup rc rc'. enter. along Hopen. along Hlive. along Hstat.
  along Hdir. along Hacc. along Hname. rewrite get_object_attributes_run.
  reflexivity.
Qed.

End Granted.
End Directory.
End Statted.
End Live.
End Opened.

Lemma lookupPath_null p_path pc cell attrs :
  p_path = None \/ cell = None \/ pc = None ->
  call (VFSFSAL_lookupPath p_path pc) cell attrs =
  (mk_status ERR_FSAL_FAULT 0, entry_frame cell attrs).
Proof.
  intros Hnull. unfold call, VFSFSAL_lookupPath.
  destruct cell, pc, p_path; try reflexivity.
  destruct Hnull as [H | [H | H]]; discriminate H.
Qed.

Lemma lookupPath_relative pth context object attrs :
  first_char pth <> "/"%char ->
  call (VFSFSAL_lookupPath (Some pth) (Some context)) (Some object) attrs =
  (mk_status ERR_FSAL_INVAL 0, entry_frame (Some object) attrs).
Proof.
  intros Hrel. apply Ascii.eqb_neq in Hrel. enter. along Hrel. reflexivity.
Qed.

Section Absolute.
Variables (pth : fsal_path_t) (context : vfsfsal_op_context_t).
Variables (object : vfsfsal_handle_t) (attrs : option fsal_attrib_list_t).
Variables (status : fsal_status_t) (found : vfsfsal_handle_t).
Hypothesis Habs : first_char pth = "/"%char.
Hypothesis Hwalk : fsal_internal_Path2Handle context pth object = (status, found).

Lemma lookupPath_fails :
  FSAL_IS_ERROR status = true ->
  call (VFSFSAL_lookupPath (Some pth) (Some context)) (Some object) attrs =
  (status, mk_frame 0 [Ev_Path2Handle pth] (Some found) attrs).
Proof.
  intros Herr. apply Ascii.eqb_eq in Habs.
  enter. along Habs. along Hwalk. along Herr. reflexivity.
Qed.

Lemma lookupPath_found :
  FSAL_IS_ERROR status = false ->
  call (VFSFSAL_lookupPath (Some pth) (Some context)) (Some object) attrs =
  (mk_status ERR_FSAL_NO_ERROR 0,
   mk_frame 0 (Ev_Path2Handle pth :: attr_calls found attrs) (Some found)
            (attrs_after found context attrs)).
Proof.
  intros Hok. apply Ascii.eqb_eq in Habs.
  enter. along Habs. along Hwalk. along Hok. rewrite get_object_attributes_run.
  reflexivity.
Qed.

End Absolute.

End ExitPaths.

(** ** Argument checks, the root and the junction stub *)

Section Entry.
Context {C : Collaborators}.

(** C4.  [VFSFSAL_lookupJunction] hands back ERR_FSAL_NO_ERROR for every
    input and leaves the frame as it found it: the cell behind the output
    handle is not written, nothing is called, and no failure (NotFound or
    other) is reported for a junction that has no mapping. *)
Theorem lookupJunction_is_a_stub p_junction_handle p_context cell attrs :
  call (VFSFSAL_lookupJunction p_junction_handle p_context) cell attrs =
  (mk_status ERR_FSAL_NO_ERROR 0, entry_frame cell attrs).
Proof. unfold call, VFSFSAL_lookupJunction. destruct attrs; reflexivity. Qed.

(** C9.  With a parent handle and no name, or a name and no parent handle,
    [VFSFSAL_lookup] hands back ERR_FSAL_FAULT and leaves the entry frame:
    no handle is opened and nothing outside the function is called. *)
Theorem lookup_needs_both_or_neither parent filename p_context errsv cell attrs :
  call (VFSFSAL_lookup (Some parent) None p_context errsv) cell attrs =
    (mk_status ERR_FSAL_FAULT 0, entry_frame cell attrs) /\
  call (VFSFSAL_lookup None (Some filename) p_context errsv) cell attrs =
    (mk_status ERR_FSAL_FAULT 0, entry_frame cell attrs).
Proof.
  split; [apply lookup_name_missing | apply lookup_parent_missing].
Qed.

(** C10.  A null output-handle pointer or a null context makes
    [VFSFSAL_lookup] hand back ERR_FSAL_FAULT, and a null path, output
    handle or context does the same for [VFSFSAL_lookupPath]; in both the
    frame is the entry frame, so no other check ran and nothing was
    written or called. *)
Theorem null_arguments_fault pp pf p_path p_context errsv cell attrs :
  (cell = None \/ p_context = None ->
   call (VFSFSAL_lookup pp pf p_context errsv) cell attrs =
   (mk_status ERR_FSAL_FAULT 0, entry_frame cell attrs)) /\
  (p_path = None \/ cell = None \/ p_context = None ->
   call (VFSFSAL_lookupPath p_path p_context) cell attrs =
   (mk_status ERR_FSAL_FAULT 0, entry_frame cell attrs)).
Proof.
  split.
  - intros [-> | ->]; [apply lookup_null_output | apply lookup_null_context].
  - apply lookupPath_null.
Qed.

(** C6.  With neither parent handle nor name, and valid output and
    context pointers, [VFSFSAL_lookup] hands back ERR_FSAL_NO_ERROR
    whatever the context and whatever the attribute fetch answers; the
    output cell holds a copy of the root handle of the export, no access
    check is made, and the only call that leaves the function is the
    attribute fetch, made exactly when attributes were asked for. *)
Theorem lookup_root_succeeds context errsv object attrs :
  let root := mk_handle (root_handle (export_context context)) in
  let r := call (VFSFSAL_lookup None None (Some context) errsv) (Some object) attrs in
  fst r = mk_status ERR_FSAL_NO_ERROR 0 /\
  object_handle (snd r) = Some root /\
  existsb is_testAccess (calls (snd r)) = false /\
  calls (snd r) = match attrs with
                  | None => []
                  | Some _ => [Ev_getattrs root]
                  end.
Proof.
  intros root r. subst r. rewrite lookup_root_path. fold root. cbn.
  destruct attrs; repeat split; reflexivity.
Qed.

(** C5.  Once the parent is open and its metadata read, the kind
    [posix2fsal_type] gives to [st_mode] decides alone: for a directory
    the next call is the access check; a junction is answered
    ERR_FSAL_XDEV; a file, a link or an extended attribute
    ERR_FSAL_NOTDIR; any other value ERR_FSAL_SERVERFAULT.  In the last
    three cases the descriptor is closed and nothing else is called. *)
Theorem lookup_kind_decides parent filename context errsv object attrs
    status parentfd e buffstat :
  fsal_internal_handle2fd context parent O_RDONLY = (status, parentfd) ->
  FSAL_IS_ERROR status = false ->
  fstat parentfd = (0, e, buffstat) ->
  let r := call (VFSFSAL_lookup (Some parent) (Some filename) (Some context) errsv)
                (Some object) attrs in
  let refused code :=
    r = (mk_status code 0,
         mk_frame e (statted parent parentfd ++ [Ev_close parentfd])
                  (Some object) attrs) in
  match posix2fsal_type (st_mode buffstat) with
  | FSAL_TYPE_DIR =>
      exists rest,
        calls (snd r) = statted parent parentfd ++ Ev_testAccess buffstat :: rest
  | FSAL_TYPE_JUNCTION => refused ERR_FSAL_XDEV
  | FSAL_TYPE_FILE | FSAL_TYPE_LNK | FSAL_TYPE_XATTR => refused ERR_FSAL_NOTDIR
  | FSAL_TYPE_other _ => refused ERR_FSAL_SERVERFAULT
  end.
Proof.
  intros Hopen Hlive Hstat r refused.
  destruct (posix2fsal_type (st_mode buffstat)) eqn:Hkind;
    try (subst refused r; cbv beta;
         rewrite (lookup_wrong_kind _ filename _ errsv object attrs _ _
                    Hopen Hlive _ _ _ Hstat eq_refl)
           by (rewrite Hkind; discriminate);
         rewrite Hkind; reflexivity).
  subst r.
  destruct (FSAL_IS_ERROR (fsal_internal_testAccess context FSAL_X_OK buffstat))
    eqn:Hacc.
  - rewrite (lookup_denied _ filename _ errsv object attrs _ _
               Hopen Hlive _ _ _ Hstat eq_refl Hkind Hacc).
    exists []. reflexivity.
  - destruct (vfs_name_by_handle_at parentfd (name filename)
                (with_handle_bytes VFS_HANDLE_LEN (data_vfs_handle object)))
      as [[rc' e'] found] eqn:Hname.
    destruct (Z.eq_dec rc' 0) as [Hrc' | Hrc'].
    + rewrite (lookup_found _ filename _ errsv object attrs _ _
                 Hopen Hlive _ _ _ Hstat eq_refl Hkind Hacc _ _ _ Hname Hrc').
      eexists. reflexivity.
    + rewrite (lookup_name_fails _ filename _ errsv object attrs _ _
                 Hopen Hlive _ _ _ Hstat eq_refl Hkind Hacc _ _ _ Hname Hrc').
      eexists. reflexivity.
Qed.

End Entry.

(** ** Failures after the parent is open *)

Section Failures.
Context {C : Collaborators}.

(** C1.  What the code does when [fstat] fails: the status is computed
    from the local [errsv], which nothing has assigned, and the code
    [fstat] left in [errno] (copied to [errsrv]) plays no part.  So when
    [fstat] reports ENOENT and [errsv] holds another value, the major code
    is [posix2fsal_error errsv], which is ERR_FSAL_STALE only if the mapper
    happens to send that value there. *)
Theorem lookup_fstat_failure_reads_errsv parent filename context errsv object attrs
    status parentfd rc buffstat :
  fsal_internal_handle2fd context parent O_RDONLY = (status, parentfd) ->
  FSAL_IS_ERROR status = false ->
  fstat parentfd = (rc, ENOENT, buffstat) ->
  rc <> 0 ->
  errsv <> ENOENT ->
  fst (call (VFSFSAL_lookup (Some parent) (Some filename) (Some context) errsv)
            (Some object) attrs) =
  mk_status (posix2fsal_error errsv) errsv.
Proof.
  intros Hopen Hlive Hstat Hrc Hsv.
  rewrite (lookup_fstat_fails _ filename _ errsv object attrs _ _
             Hopen Hlive _ _ _ Hstat Hrc).
  apply Z.eqb_neq in Hsv. rewrite Hsv. reflexivity.
Qed.

(** C2.  What the code does when the access check refuses: the status of
    the check is handed back and the log ends with the check, so the
    descriptor obtained from [fsal_internal_handle2fd] is never closed. *)
Theorem lookup_denied_leaves_parent_open parent filename context errsv object attrs
    status parentfd e buffstat :
  fsal_internal_handle2fd context parent O_RDONLY = (status, parentfd) ->
  FSAL_IS_ERROR status = false ->
  fstat parentfd = (0, e, buffstat) ->
  posix2fsal_type (st_mode buffstat) = FSAL_TYPE_DIR ->
  FSAL_IS_ERROR (fsal_internal_testAccess context FSAL_X_OK buffstat) = true ->
  let r := call (VFSFSAL_lookup (Some parent) (Some filename) (Some context) errsv)
                (Some object) attrs in
  fst r = fsal_internal_testAccess context FSAL_X_OK buffstat /\
  close_count parentfd (calls (snd r)) = 0%nat.
Proof.
  intros Hopen Hlive Hstat Hdir Hacc r. subst r.
  rewrite (lookup_denied _ filename _ errsv object attrs _ _
             Hopen Hlive _ _ _ Hstat eq_refl Hdir Hacc).
  split; reflexivity.
Qed.

Lemma close_count_attr_calls fd h attrs : close_count fd (attr_calls h attrs) = 0%nat.
Proof. destruct attrs; reflexivity. Qed.

Lemma close_count_app fd l1 l2 :
  close_count fd (l1 ++ l2) = (close_count fd l1 + close_count fd l2)%nat.
Proof. unfold close_count. rewrite filter_app, length_app. reflexivity. Qed.

(** X13.  Once the parent is open, the descriptor is closed exactly once
    on every way out of [VFSFSAL_lookup] but the refusal of the access
    check, where it is not closed. *)
Lemma lookup_closes_unless_denied parent filename context errsv object attrs
    status parentfd rc e buffstat :
  fsal_internal_handle2fd context parent O_RDONLY = (status, parentfd) ->
  FSAL_IS_ERROR status = false ->
  fstat parentfd = (rc, e, buffstat) ->
  let r := call (VFSFSAL_lookup (Some parent) (Some filename) (Some context) errsv)
                (Some object) attrs in
  let denied :=
    (rc =? 0) &&
    match posix2fsal_type (st_mode buffstat) with
    | FSAL_TYPE_DIR =>
        FSAL_IS_ERROR (fsal_internal_testAccess context FSAL_X_OK buffstat)
    | _ => false
    end in
  close_count parentfd (calls (snd r)) = if denied then 0%nat else 1%nat.
Proof.
  intros Hopen Hlive Hstat r denied. subst r denied.
  assert (Hself : forall l, close_count parentfd (l ++ [Ev_close parentfd]) =
                            S (close_count parentfd l)).
  { intros l. rewrite close_count_app. unfold close_count at 2. cbn.
    rewrite Z.eqb_refl. cbn. lia. }
  destruct (Z.eq_dec rc 0) as [Hrc | Hrc].
  - rewrite (proj2 (Z.eqb_eq rc 0) Hrc). cbn [andb].
    destruct (posix2fsal_type (st_mode buffstat)) eqn:Hkind;
      try (rewrite (lookup_wrong_kind _ filename _ errsv object attrs _ _
                      Hopen Hlive _ _ _ Hstat Hrc)
             by (rewrite Hkind; discriminate);
           cbn [snd calls]; rewrite Hself; reflexivity).
    destruct (FSAL_IS_ERROR (fsal_internal_testAccess context FSAL_X_OK buffstat))
      eqn:Hacc.
    + rewrite (lookup_denied _ filename _ errsv object attrs _ _
                 Hopen Hlive _ _ _ Hstat Hrc Hkind Hacc). reflexivity.
    + destruct (vfs_name_by_handle_at parentfd (name filename)
                  (with_handle_bytes VFS_HANDLE_LEN (data_vfs_handle object)))
        as [[rc' e'] found] eqn:Hname.
      destruct (Z.eq_dec rc' 0) as [Hrc' | Hrc'].
      * rewrite (lookup_found _ filename _ errsv object attrs _ _
                   Hopen Hlive _ _ _ Hstat Hrc Hkind Hacc _ _ _ Hname Hrc').
        cbn [snd calls]. rewrite close_count_app.
        change (Ev_testAccess buffstat :: looked_up parentfd filename ++
                attr_calls (mk_handle found) attrs)
          with ((Ev_testAccess buffstat :: looked_up parentfd filename) ++
                attr_calls (mk_handle found) attrs).
        rewrite close_count_app, close_count_attr_calls.
        unfold close_count. cbn. rewrite Z.eqb_refl. reflexivity.
      * rewrite (lookup_name_fails _ filename _ errsv object attrs _ _
                   Hopen Hlive _ _ _ Hstat Hrc Hkind Hacc _ _ _ Hname Hrc').
        cbn [snd calls]. rewrite close_count_app.
        unfold close_count. cbn. rewrite Z.eqb_refl. reflexivity.
  - rewrite (proj2 (Z.eqb_neq rc 0) Hrc). cbn [andb].
    rewrite (lookup_fstat_fails _ filename _ errsv object attrs _ _
               Hopen Hlive _ _ _ Hstat Hrc).
    cbn [snd calls]. rewrite Hself. reflexivity.
Qed.

End Failures.

(** ** The name lookup and the attributes *)

Section NameLookup.
Context {C : Collaborators}.

(** C3, as the code has it.  When [VFSFSAL_lookup] hands back an error,
    the output cell is as the caller left it, unless the error is that of
    the name lookup: by then [handle_bytes] has been set to VFS_HANDLE_LEN
    and the cell holds what [vfs_name_by_handle_at] left in the handle so
    prepared. *)
Theorem lookup_error_output_handle pp pf p_context errsv cell attrs :
  let r := call (VFSFSAL_lookup pp pf p_context errsv) cell attrs in
  FSAL_IS_ERROR (fst r) = true ->
  object_handle (snd r) = cell \/
  exists object filename parentfd,
    cell = Some object /\ pf = Some filename /\
    In (Ev_name_by_handle_at parentfd (name filename)) (calls (snd r)) /\
    object_handle (snd r) =
    Some (mk_handle
            (snd (vfs_name_by_handle_at parentfd (name filename)
                    (with_handle_bytes VFS_HANDLE_LEN (data_vfs_handle object))))).
Proof.
  intros r. subst r.
  destruct cell as [object|]; [| rewrite lookup_null_output; now left].
  destruct p_context as [context|]; [| rewrite lookup_null_context; now left].
  destruct pp as [parent|], pf as [filename|];
    [| rewrite lookup_name_missing; now left
     | rewrite lookup_parent_missing; now left
     | rewrite lookup_root_path; discriminate].
  destruct (fsal_internal_handle2fd context parent O_RDONLY)
    as [status parentfd] eqn:Hopen.
  destruct (FSAL_IS_ERROR status) eqn:Hlive;
    [rewrite (lookup_open_fails _ filename _ errsv object attrs _ _ Hopen Hlive);
     now left |].
  destruct (fstat parentfd) as [[rc e] buffstat] eqn:Hstat.
  destruct (Z.eq_dec rc 0) as [Hrc | Hrc];
    [| rewrite (lookup_fstat_fails _ filename _ errsv object attrs _ _
                  Hopen Hlive _ _ _ Hstat Hrc); now left].
  destruct (posix2fsal_type (st_mode buffstat)) eqn:Hkind;
    try (rewrite (lookup_wrong_kind _ filename _ errsv object attrs _ _
                    Hopen Hlive _ _ _ Hstat Hrc)
           by (rewrite Hkind; discriminate);
         now left).
  destruct (FSAL_IS_ERROR (fsal_internal_testAccess context FSAL_X_OK buffstat))
    eqn:Hacc;
    [rewrite (lookup_denied _ filename _ errsv object attrs _ _
                Hopen Hlive _ _ _ Hstat Hrc Hkind Hacc); now left |].
  destruct (vfs_name_by_handle_at parentfd (name filename)
              (with_handle_bytes VFS_HANDLE_LEN (data_vfs_handle object)))
    as [[rc' e'] found] eqn:Hname.
  destruct (Z.eq_dec rc' 0) as [Hrc' | Hrc'].
  - rewrite (lookup_found _ filename _ errsv object attrs _ _
               Hopen Hlive _ _ _ Hstat Hrc Hkind Hacc _ _ _ Hname Hrc').
    discriminate.
  - rewrite (lookup_name_fails _ filename _ errsv object attrs _ _
               Hopen Hlive _ _ _ Hstat Hrc Hkind Hacc _ _ _ Hname Hrc').
    intros _. right. exists object, filename, parentfd.
    rewrite Hname. cbn [snd calls object_handle].
    repeat split. apply in_or_app. right. cbn. auto.
Qed.

(** C7, as the code has it.  For a live directory whose access check lets
    the caller through, a name the lookup primitive reports missing
    (ENOENT) is answered with the code the error mapper gives to ENOENT,
    NotFound, and the minor code ENOENT; it is not ERR_FSAL_STALE. *)
Theorem lookup_missing_name_is_NOENT parent filename context errsv object attrs
    status parentfd e buffstat rc' found :
  ErrorMapper_NotFound C ->
  fsal_internal_handle2fd context parent O_RDONLY = (status, parentfd) ->
  FSAL_IS_ERROR status = false ->
  fstat parentfd = (0, e, buffstat) ->
  posix2fsal_type (st_mode buffstat) = FSAL_TYPE_DIR ->
  FSAL_IS_ERROR (fsal_internal_testAccess context FSAL_X_OK buffstat) = false ->
  vfs_name_by_handle_at parentfd (name filename)
    (with_handle_bytes VFS_HANDLE_LEN (data_vfs_handle object)) =
    (rc', ENOENT, found) ->
  rc' <> 0 ->
  fst (call (VFSFSAL_lookup (Some parent) (Some filename) (Some context) errsv)
            (Some object) attrs) =
  mk_status ERR_FSAL_NOENT ENOENT.
Proof.
  intros Hmap Hopen Hlive Hstat Hdir Hacc Hname Hrc'.
  rewrite (lookup_name_fails _ filename _ errsv object attrs _ _
             Hopen Hlive _ _ _ Hstat eq_refl Hdir Hacc _ _ _ Hname Hrc').
  cbn [fst]. rewrite Hmap. reflexivity.
Qed.

Lemma attrs_after_failure h context a :
  FSAL_IS_ERROR (fst (VFSFSAL_getattrs h context a)) = true ->
  exists attrs', attrs_after h context (Some a) = Some attrs' /\
                 asked_attributes attrs' = FSAL_ATTR_RDATTR_ERR.
Proof.
  unfold attrs_after. destruct (VFSFSAL_getattrs h context a) as [status a'].
  cbn [fst]. intros ->. eexists. split; reflexivity.
Qed.

(** C8.  Whenever [VFSFSAL_lookup] (for the root or for a name) or
    [VFSFSAL_lookupPath] has obtained the handle and [VFSFSAL_getattrs]
    then fails on it, the call still hands back ERR_FSAL_NO_ERROR with
    that handle, and the mask of the attributes is exactly
    FSAL_ATTR_RDATTR_ERR. *)
Theorem attribute_failure_degrades context object a :
  (forall errsv,
     let root := mk_handle (root_handle (export_context context)) in
     FSAL_IS_ERROR (fst (VFSFSAL_getattrs root context a)) = true ->
     degraded (call (VFSFSAL_lookup None None (Some context) errsv)
                    (Some object) (Some a)) root) /\
  (forall parent filename errsv status parentfd e buffstat e' found,
     fsal_internal_handle2fd context parent O_RDONLY = (status, parentfd) ->
     FSAL_IS_ERROR status = false ->
     fstat parentfd = (0, e, buffstat) ->
     posix2fsal_type (st_mode buffstat) = FSAL_TYPE_DIR ->
     FSAL_IS_ERROR (fsal_internal_testAccess context FSAL_X_OK buffstat) = false ->
     vfs_name_by_handle_at parentfd (name filename)
       (with_handle_bytes VFS_HANDLE_LEN (data_vfs_handle object)) =
       (0, e', found) ->
     FSAL_IS_ERROR (fst (VFSFSAL_getattrs (mk_handle found) context a)) = true ->
     degraded (call (VFSFSAL_lookup (Some parent) (Some filename) (Some context) errsv)
                    (Some object) (Some a)) (mk_handle found)) /\
  (forall pth status found,
     first_char pth = "/"%char ->
     fsal_internal_Path2Handle context pth object = (status, found) ->
     FSAL_IS_ERROR status = false ->
     FSAL_IS_ERROR (fst (VFSFSAL_getattrs found context a)) = true ->
     degraded (call (VFSFSAL_lookupPath (Some pth) (Some context))
                    (Some object) (Some a)) found).
Proof.
  split; [| split].
  - intros errsv root Hattr. rewrite lookup_root_path. fold root.
    repeat split. now apply attrs_after_failure.
  - intros parent filename errsv status parentfd e buffstat e' found
           Hopen Hlive Hstat Hdir Hacc Hname Hattr.
    rewrite (lookup_found _ filename _ errsv object (Some a) _ _
               Hopen Hlive _ _ _ Hstat eq_refl Hdir Hacc _ _ _ Hname eq_refl).
    repeat split. now apply attrs_after_failure.
  - intros pth status found Habs Hwalk Hok Hattr.
    rewrite (lookupPath_found _ _ object (Some a) _ _ Habs Hwalk Hok).
    repeat split. now apply attrs_after_failure.
Qed.

End NameLookup.

(** ** The theorems on the fixture *)

Section Runs.
Import Fixture.
#[local] Existing Instance Fixture.export.

(** A null context, and a null path. *)
Lemma null_arguments_fault_witness :
  call (VFSFSAL_lookup (Some (handle_of 1)) (Some (mk_name "etc")) None 0)
       (Some blank) None =
    (mk_status ERR_FSAL_FAULT 0, entry_frame (Some blank) None) /\
  call (VFSFSAL_lookupPath None (Some (context_of 0))) (Some blank) None =
    (mk_status ERR_FSAL_FAULT 0, entry_frame (Some blank) None).
Proof.
  split.
  - exact (proj1 (null_arguments_fault (Some (handle_of 1)) (Some (mk_name "etc"))
                    None None 0 (Some blank) None) (or_intror eq_refl)).
  - exact (proj2 (null_arguments_fault None None None (Some (context_of 0)) 0
                    (Some blank) None) (or_introl eq_refl)).
Defined.

(** Object 2 is a regular file: looking a name up in it is refused. *)
Lemma lookup_kind_decides_witness :
  lookup_as 0 2 "etc" 0 None =
  (mk_status ERR_FSAL_NOTDIR 0,
   mk_frame 0 (statted (handle_of 2) 102 ++ [Ev_close 102]) (Some blank) None).
Proof.
  exact (lookup_kind_decides (handle_of 2) (mk_name "etc") (context_of 0) 0 blank
           None _ 102 0 _ eq_refl eq_refl eq_refl).
Defined.

(** Object 9 is gone: [fstat] fails with ENOENT, [errsv] holds 13, and
    the caller is told ERR_FSAL_ACCESS. *)
Lemma lookup_fstat_failure_reads_errsv_witness :
  fstat 109 = (-1, ENOENT, mk_stat 0 0 0 0) /\
  fst (lookup_as 0 9 "etc" 13 None) = mk_status ERR_FSAL_ACCESS 13.
Proof.
  split; [reflexivity |].
  refine (lookup_fstat_failure_reads_errsv (handle_of 9) (mk_name "etc")
            (context_of 0) 13 blank None _ 109 (-1) _
            eq_refl eq_refl eq_refl _ _); discriminate.
Defined.

(** User 1000 may not traverse the root: descriptor 101 stays open. *)
Lemma lookup_denied_leaves_parent_open_witness :
  fst (lookup_as 1000 1 "etc" 0 None) = mk_status ERR_FSAL_ACCESS 0 /\
  close_count 101 (calls (snd (lookup_as 1000 1 "etc" 0 None))) = 0%nat.
Proof.
  exact (lookup_denied_leaves_parent_open (handle_of 1) (mk_name "etc")
           (context_of 1000) 0 blank None _ 101 0 _
           eq_refl eq_refl eq_refl eq_refl eq_refl).
Defined.

(** C3 fails as stated: user 0 looks "tmp" up in the root, where there is
    no such name.  The call fails with ERR_FSAL_NOENT, and the blank
    output cell now has [handle_bytes] = 10. *)
Lemma lookup_error_writes_handle_bytes :
  fst (lookup_as 0 1 "tmp" 0 None) = mk_status ERR_FSAL_NOENT ENOENT /\
  FSAL_IS_ERROR (fst (lookup_as 0 1 "tmp" 0 None)) = true /\
  object_handle (snd (lookup_as 0 1 "tmp" 0 None)) =
    Some (mk_handle (mk_vfs_handle 10 0 [])) /\
  object_handle (snd (lookup_as 0 1 "tmp" 0 None)) <> Some blank.
Proof. repeat split. discriminate. Qed.

Lemma lookup_error_output_handle_witness :
  FSAL_IS_ERROR (fst (lookup_as 0 1 "tmp" 0 None)) = true /\
  (object_handle (snd (lookup_as 0 1 "tmp" 0 None)) = Some blank \/
   exists object filename parentfd,
     Some blank = Some object /\ Some (mk_name "tmp") = Some filename /\
     In (Ev_name_by_handle_at parentfd (name filename))
        (calls (snd (lookup_as 0 1 "tmp" 0 None))) /\
     object_handle (snd (lookup_as 0 1 "tmp" 0 None)) =
     Some (mk_handle
             (snd (vfs_name_by_handle_at parentfd (name filename)
                     (with_handle_bytes VFS_HANDLE_LEN (data_vfs_handle object)))))).
Proof.
  split; [reflexivity |].
  exact (lookup_error_output_handle (Some (handle_of 1)) (Some (mk_name "tmp"))
           (Some (context_of 0)) 0 (Some blank) None eq_refl).
Defined.

(** C7 fails as stated: the root is a live directory and has no "tmp",
    yet user 1000, who may not traverse it, is told ERR_FSAL_ACCESS. *)
Lemma lookup_missing_name_access_denied :
  fsal_internal_handle2fd (context_of 1000) (handle_of 1) O_RDONLY =
    (mk_status ERR_FSAL_NO_ERROR 0, 101) /\
  fstat 101 = (0, 0, mk_stat (S_IFDIR + 448) 1 0 0) /\
  posix2fsal_type (S_IFDIR + 448) = FSAL_TYPE_DIR /\
  vfs_name_by_handle_at 101 "tmp"
    (with_handle_bytes VFS_HANDLE_LEN (data_vfs_handle blank)) =
    (-1, ENOENT, with_handle_bytes VFS_HANDLE_LEN (data_vfs_handle blank)) /\
  posix2fsal_error ENOENT = ERR_FSAL_NOENT /\
  fst (lookup_as 1000 1 "tmp" 0 None) = mk_status ERR_FSAL_ACCESS 0 /\
  major (fst (lookup_as 1000 1 "tmp" 0 None)) <> ERR_FSAL_NOENT.
Proof. repeat split. discriminate. Qed.

Lemma lookup_missing_name_is_NOENT_witness :
  fst (lookup_as 0 1 "tmp" 0 None) = mk_status ERR_FSAL_NOENT ENOENT.
Proof.
  refine (lookup_missing_name_is_NOENT (handle_of 1) (mk_name "tmp") (context_of 0)
            0 blank None _ 101 0 _ (-1) _
            eq_refl eq_refl eq_refl eq_refl eq_refl eq_refl eq_refl _).
  discriminate.
Defined.

(** Attribute 5 is asked for the root, for "etc" found by name, and for
    "/etc" found by path. *)
Lemma attribute_failure_degrades_witness :
  degraded (call (VFSFSAL_lookup None None (Some (context_of 0)) 0)
                 (Some blank) (Some unreadable)) (handle_of 1) /\
  degraded (lookup_as 0 1 "etc" 0 (Some unreadable)) (handle_of 3) /\
  degraded (call (VFSFSAL_lookupPath (Some (mk_path "/etc")) (Some (context_of 0)))
                 (Some blank) (Some unreadable)) (handle_of 3).
Proof.
  destruct (attribute_failure_degrades (context_of 0) blank unreadable)
    as (Root & Name & Path).
  split; [| split].
  - exact (Root 0 eq_refl).
  - exact (Name (handle_of 1) (mk_name "etc") 0 _ 101 0 _ 0 _
             eq_refl eq_refl eq_refl eq_refl eq_refl eq_refl eq_refl).
  - exact (Path (mk_path "/etc") _ _ eq_refl eq_refl eq_refl eq_refl).
Defined.

End Runs.

(** ** Reasoning by exit

    [VFSFSAL_lookup] leaves in one of a few ways; a property of its result
    is proved by proving it of each. *)

Lemma fsal_nodetype_t_eq_dir (k : fsal_nodetype_t) :
  {k = FSAL_TYPE_DIR} + {k <> FSAL_TYPE_DIR}.
Proof. destruct k; (now left) || (right; discriminate). Qed.

Section ByExit.
Context {C : Collaborators}.
Variables (errsv : Z) (attrs : option fsal_attrib_list_t).
Variable P : fsal_status_t * frame -> Prop.

Section Resolving.
Variables (parent : vfsfsal_handle_t) (filename : fsal_name_t).
Variables (context : vfsfsal_op_context_t) (object : vfsfsal_handle_t).
Variables (status : fsal_status_t) (parentfd rc e : Z) (buffstat : stat).
Variables (rc' e' : Z) (found : vfs_file_handle_t).
Hypothesis Hopen :
  fsal_internal_handle2fd context parent O_RDONLY = (status, parentfd).
Hypothesis Hstat : fstat parentfd = (rc, e, buffstat).
Hypothesis Hname :
  vfs_name_by_handle_at parentfd (name filename)
    (with_handle_bytes VFS_HANDLE_LEN (data_vfs_handle object)) = (rc', e', found).

Lemma lookup_by_exit :
  (FSAL_IS_ERROR status = true ->
   P (status, mk_frame 0 (opened parent) (Some object) attrs)) ->
  (FSAL_IS_ERROR status = false -> rc <> 0 ->
   P (mk_status (if errsv =? ENOENT then ERR_FSAL_STALE else posix2fsal_error errsv)
                errsv,
      mk_frame e (statted parent parentfd ++ [Ev_close parentfd])
               (Some object) attrs)) ->
  (FSAL_IS_ERROR status = false -> rc = 0 ->
   posix2fsal_type (st_mode buffstat) <> FSAL_TYPE_DIR ->
   P (mk_status
        match posix2fsal_type (st_mode buffstat) with
        | FSAL_TYPE_JUNCTION => ERR_FSAL_XDEV
        | FSAL_TYPE_FILE | FSAL_TYPE_LNK | FSAL_TYPE_XATTR => ERR_FSAL_NOTDIR
        | _ => ERR_FSAL_SERVERFAULT
        end 0,
      mk_frame e (statted parent parentfd ++ [Ev_close parentfd])
               (Some object) attrs)) ->
  (FSAL_IS_ERROR status = false -> rc = 0 ->
   posix2fsal_type (st_mode buffstat) = FSAL_TYPE_DIR ->
   FSAL_IS_ERROR (fsal_internal_testAccess context FSAL_X_OK buffstat) = true ->
   P (fsal_internal_testAccess context FSAL_X_OK buffstat,
      mk_frame e (statted parent parentfd ++ [Ev_testAccess buffstat])
               (Some object) attrs)) ->
  (FSAL_IS_ERROR status = false -> rc = 0 ->
   posix2fsal_type (st_mode buffstat) = FSAL_TYPE_DIR ->
   FSAL_IS_ERROR (fsal_internal_testAccess context FSAL_X_OK buffstat) = false ->
   rc' <> 0 ->
   P (mk_status (posix2fsal_error e') e',
      mk_frame e'
        (statted parent parentfd ++
         Ev_testAccess buffstat :: looked_up parentfd filename)
        (Some (mk_handle found)) attrs)) ->
  (FSAL_IS_ERROR status = false -> rc = 0 ->
   posix2fsal_type (st_mode buffstat) = FSAL_TYPE_DIR ->
   FSAL_IS_ERROR (fsal_internal_testAccess context FSAL_X_OK buffstat) = false ->
   rc' = 0 ->
   P (mk_status ERR_FSAL_NO_ERROR 0,
      mk_frame e'
        (statted parent parentfd ++
         Ev_testAccess buffstat :: looked_up parentfd filename ++
         attr_calls (mk_handle found) attrs)
        (Some (mk_handle found))
        (attrs_after (mk_handle found) context attrs))) ->
  P (call (VFSFSAL_lookup (Some parent) (Some filename) (Some context) errsv)
          (Some object) attrs).
Proof.
  intros Xopen Xstat Xkind Xdenied Xname Xfound.
  destruct (bool_dec (FSAL_IS_ERROR status) true) as [Hlive | Hlive];
    [| apply not_true_is_false in Hlive].
  { rewrite (lookup_open_fails _ filename _ errsv object attrs _ _ Hopen Hlive).
    now apply Xopen. }
  destruct (Z.eq_dec rc 0) as [Hrc | Hrc].
  2: { rewrite (lookup_fstat_fails _ filename _ errsv object attrs _ _
                  Hopen Hlive _ _ _ Hstat Hrc).
       now apply Xstat. }
  destruct (fsal_nodetype_t_eq_dir (posix2fsal_type (st_mode buffstat)))
    as [Hdir | Hkind].
  2: { rewrite (lookup_wrong_kind _ filename _ errsv object attrs _ _
                  Hopen Hlive _ _ _ Hstat Hrc Hkind).
       now apply Xkind. }
  destruct (bool_dec (FSAL_IS_ERROR
                        (fsal_internal_testAccess context FSAL_X_OK buffstat)) true)
    as [Hacc | Hacc]; [| apply not_true_is_false in Hacc].
  { rewrite (lookup_denied _ filename _ errsv object attrs _ _
               Hopen Hlive _ _ _ Hstat Hrc Hdir Hacc).
    now apply Xdenied. }
  destruct (Z.eq_dec rc' 0) as [Hrc' | Hrc'].
  - rewrite (lookup_found _ filename _ errsv object attrs _ _
               Hopen Hlive _ _ _ Hstat Hrc Hdir Hacc _ _ _ Hname Hrc').
    now apply Xfound.
  - rewrite (lookup_name_fails _ filename _ errsv object attrs _ _
               Hopen Hlive _ _ _ Hstat Hrc Hdir Hacc _ _ _ Hname Hrc').
    now apply Xname.
Qed.

End Resolving.

Lemma lookup_by_input pp pf pc cell :
  P (mk_status ERR_FSAL_FAULT 0, entry_frame cell attrs) ->
  (forall context object,
     pc = Some context -> cell = Some object -> pp = None -> pf = None ->
     let root := mk_handle (root_handle (export_context context)) in
     P (mk_status ERR_FSAL_NO_ERROR 0,
        mk_frame 0 (attr_calls root attrs) (Some root)
                 (attrs_after root context attrs))) ->
  (forall parent filename context object,
     pc = Some context -> cell = Some object ->
     pp = Some parent -> pf = Some filename ->
     P (call (VFSFSAL_lookup (Some parent) (Some filename) (Some context) errsv)
             (Some object) attrs)) ->
  P (call (VFSFSAL_lookup pp pf pc errsv) cell attrs).
Proof.
  intros Xfault Xroot Xresolve.
  destruct cell as [object|]; [| now rewrite lookup_null_output].
  destruct pc as [context|]; [| now rewrite lookup_null_context].
  destruct pp as [parent|], pf as [filename|].
  - now apply Xresolve.
  - now rewrite lookup_name_missing.
  - now rewrite lookup_parent_missing.
  - rewrite lookup_root_path. now apply (Xroot context object).
Qed.

End ByExit.

Section PathByExit.
Context {C : Collaborators}.
Variables (p_path : option fsal_path_t) (pc : option vfsfsal_op_context_t).
Variables (cell : option vfsfsal_handle_t) (attrs : option fsal_attrib_list_t).
Variable P : fsal_status_t * frame -> Prop.

Lemma lookupPath_by_exit :
  (p_path = None \/ cell = None \/ pc = None ->
   P (mk_status ERR_FSAL_FAULT 0, entry_frame cell attrs)) ->
  (forall pth, p_path = Some pth -> first_char pth <> "/"%char ->
   P (mk_status ERR_FSAL_INVAL 0, entry_frame cell attrs)) ->
  (forall pth context object status found,
     p_path = Some pth -> pc = Some context -> cell = Some object ->
     first_char pth = "/"%char ->
     fsal_internal_Path2Handle context pth object = (status, found) ->
     FSAL_IS_ERROR status = true ->
     P (status, mk_frame 0 [Ev_Path2Handle pth] (Some found) attrs)) ->
  (forall pth context object status found,
     p_path = Some pth -> pc = Some context -> cell = Some object ->
     first_char pth = "/"%char ->
     fsal_internal_Path2Handle context pth object = (status, found) ->
     FSAL_IS_ERROR status = false ->
     P (mk_status ERR_FSAL_NO_ERROR 0,
        mk_frame 0 (Ev_Path2Handle pth :: attr_calls found attrs) (Some found)
                 (attrs_after found context attrs))) ->
  P (call (VFSFSAL_lookupPath p_path pc) cell attrs).
Proof.
  intros Xnull Xrel Xfail Xfound.
  destruct p_path as [pth|]; [| rewrite lookupPath_null; auto].
  destruct cell as [object|]; [| rewrite lookupPath_null; auto].
  destruct pc as [context|]; [| rewrite lookupPath_null; auto].
  destruct (ascii_dec (first_char pth) "/"%char) as [Habs | Hrel].
  2: { rewrite (lookupPath_relative _ _ _ _ Hrel). now apply (Xrel pth). }
  destruct (fsal_internal_Path2Handle context pth object) as [status found] eqn:Hwalk.
  destruct (bool_dec (FSAL_IS_ERROR status) true) as [Herr | Hok].
  - rewrite (lookupPath_fails _ _ _ attrs _ _ Habs Hwalk Herr).
    now apply (Xfail pth context object).
  - apply not_true_is_false in Hok.
    rewrite (lookupPath_found _ _ _ attrs _ _ Habs Hwalk Hok).
    now apply (Xfound pth context object status).
Qed.

End PathByExit.

(** Take a property of a call of [VFSFSAL_lookup] with all its pointers
    set apart by exit, after naming what the three file-system calls
    answer. *)
Ltac by_exit :=
  lazymatch goal with
  | |- context [call (VFSFSAL_lookup (Some ?p) (Some ?f) (Some ?c) ?sv) (Some ?o) ?a] =>
      let Hopen := fresh "Hopen" in
      let Hstat := fresh "Hstat" in
      let Hname := fresh "Hname" in
      destruct (fsal_internal_handle2fd c p O_RDONLY)
        as [status parentfd] eqn:Hopen;
      destruct (fstat parentfd) as [[rc e] buffstat] eqn:Hstat;
      destruct (vfs_name_by_handle_at parentfd (name f)
                  (with_handle_bytes VFS_HANDLE_LEN (data_vfs_handle o)))
        as [[rc' e'] found] eqn:Hname;
      pattern (call (VFSFSAL_lookup (Some p) (Some f) (Some c) sv) (Some o) a);
      apply (lookup_by_exit sv a _ p f c o _ _ _ _ _ _ _ _ Hopen Hstat Hname)
  end.

Ltac by_input :=
  lazymatch goal with
  | |- context [call (VFSFSAL_lookup ?pp ?pf ?pc ?sv) ?cell ?a] =>
      pattern (call (VFSFSAL_lookup pp pf pc sv) cell a);
      apply lookup_by_input
  end.

Ltac by_path_exit :=
  lazymatch goal with
  | |- context [call (VFSFSAL_lookupPath ?p ?pc) ?cell ?a] =>
      pattern (call (VFSFSAL_lookupPath p pc) cell a);
      apply lookupPath_by_exit
  end.

(** Split a membership in a log of known shape into its cases. *)
Ltac in_log H :=
  unfold statted, opened, looked_up, entry_frame in H; cbn in H;
  repeat (destruct H as [H | H]; try discriminate H);
  try contradiction.

(** The same for the membership among the hypotheses; the case that is
    left is named [Hin]. *)
Ltac the_log :=
  intros;
  try (match goal with a : option fsal_attrib_list_t |- _ => destruct a end);
  match goal with H : In _ _ |- _ => in_log H end;
  try (match goal with H : @eq event _ _ |- _ => rename H into Hin end).

(** ** What every call keeps *)

Section Discipline.
Context {C : Collaborators}.

(** X1.  Whatever its arguments and whichever way it leaves,
    [VFSFSAL_lookup] respects the call token: it takes it only when free,
    releases it only when held, makes each of its three file-system calls
    while holding it, and does not hold it when it returns. *)
Theorem lookup_respects_token pp pf pc errsv cell attrs :
  gated false (calls (snd (call (VFSFSAL_lookup pp pf pc errsv) cell attrs))) = true.
Proof.
  by_input.
  - reflexivity.
  - intros context object _ _ _ _ root. destruct attrs; reflexivity.
  - intros parent filename context object _ _ _ _.
    by_exit; intros; try reflexivity.
    destruct attrs; reflexivity.
Qed.

(** X2.  The name-lookup primitive is called only on a descriptor whose
    metadata says directory and only after the access check on that
    metadata has let the caller through. *)
Theorem name_lookup_needs_access pp pf pc errsv cell attrs fd nm :
  In (Ev_name_by_handle_at fd nm)
     (calls (snd (call (VFSFSAL_lookup pp pf pc errsv) cell attrs))) ->
  exists context,
    pc = Some context /\
    posix2fsal_type (st_mode (snd (fstat fd))) = FSAL_TYPE_DIR /\
    FSAL_IS_ERROR
      (fsal_internal_testAccess context FSAL_X_OK (snd (fstat fd))) = false.
Proof.
  by_input.
  - intros H. in_log H.
  - intros context object _ _ _ _ root H. destruct attrs; in_log H.
  - intros parent filename context object -> _ _ _.
    by_exit; the_log;
      injection Hin as <- _; exists context; rewrite Hstat; auto.
Qed.

(** X3.  A descriptor is closed only if it is the one
    [fsal_internal_handle2fd] returned for the parent handle, and only
    when that call succeeded. *)
Theorem close_only_what_was_opened pp pf pc errsv cell attrs fd :
  In (Ev_close fd)
     (calls (snd (call (VFSFSAL_lookup pp pf pc errsv) cell attrs))) ->
  exists parent context,
    pp = Some parent /\ pc = Some context /\
    snd (fsal_internal_handle2fd context parent O_RDONLY) = fd /\
    FSAL_IS_ERROR (fst (fsal_internal_handle2fd context parent O_RDONLY)) = false.
Proof.
  by_input.
  - intros H. in_log H.
  - intros context object _ _ _ _ root H. destruct attrs; in_log H.
  - intros parent filename context object -> _ -> _.
    by_exit; the_log;
      injection Hin as <-; exists parent, context; rewrite Hopen; auto.
Qed.

(** X4.  A call that hands back an error has not touched the caller's
    attribute structure, in [VFSFSAL_lookup] as in [VFSFSAL_lookupPath]. *)
Theorem error_leaves_attributes pp pf p_path pc errsv cell attrs :
  (FSAL_IS_ERROR (fst (call (VFSFSAL_lookup pp pf pc errsv) cell attrs)) = true ->
   object_attributes (snd (call (VFSFSAL_lookup pp pf pc errsv) cell attrs)) = attrs) /\
  (FSAL_IS_ERROR (fst (call (VFSFSAL_lookupPath p_path pc) cell attrs)) = true ->
   object_attributes (snd (call (VFSFSAL_lookupPath p_path pc) cell attrs)) = attrs).
Proof.
  split.
  - by_input; try reflexivity.
    + intros; discriminate.
    + intros parent filename context object _ _ _ _.
      by_exit; intros; try reflexivity. discriminate.
  - by_path_exit; intros; try reflexivity. discriminate.
Qed.

(** X5.  The attribute collaborator is called only for the handle the
    call hands back, only when attributes were asked for, and only by a
    call that succeeds: no exit that reports an error has fetched
    attributes. *)
Theorem attributes_fetched_for_result_only pp pf p_path pc errsv cell attrs h :
  (In (Ev_getattrs h)
      (calls (snd (call (VFSFSAL_lookup pp pf pc errsv) cell attrs))) ->
   fst (call (VFSFSAL_lookup pp pf pc errsv) cell attrs) =
     mk_status ERR_FSAL_NO_ERROR 0 /\
   object_handle (snd (call (VFSFSAL_lookup pp pf pc errsv) cell attrs)) = Some h /\
   attrs <> None) /\
  (In (Ev_getattrs h)
      (calls (snd (call (VFSFSAL_lookupPath p_path pc) cell attrs))) ->
   fst (call (VFSFSAL_lookupPath p_path pc) cell attrs) =
     mk_status ERR_FSAL_NO_ERROR 0 /\
   object_handle (snd (call (VFSFSAL_lookupPath p_path pc) cell attrs)) = Some h /\
   attrs <> None).
Proof.
  split.
  - by_input.
    + intros H. in_log H.
    + intros context object _ _ _ _ root H.
      destruct attrs; in_log H. injection H as <-. repeat split. discriminate.
    + intros parent filename context object _ _ _ _.
      by_exit; the_log. injection Hin as <-. repeat split. discriminate.
  - by_path_exit; the_log. injection Hin as <-. repeat split. discriminate.
Qed.

End Discipline.

(** ** The remaining exits of the two resolvers *)

Section Exits.
Context {C : Collaborators}.

(** X6.  When the parent handle cannot be opened, [VFSFSAL_lookup] hands
    back the status of [fsal_internal_handle2fd] as it is; the only call
    made is that one, under the token, so nothing is stat-ed or closed,
    and both output cells are as the caller left them. *)
Theorem lookup_open_failure_propagates parent filename context errsv object attrs
    status parentfd :
  fsal_internal_handle2fd context parent O_RDONLY = (status, parentfd) ->
  FSAL_IS_ERROR status = true ->
  let r := call (VFSFSAL_lookup (Some parent) (Some filename) (Some context) errsv)
                (Some object) attrs in
  fst r = status /\
  calls (snd r) = [TakeTokenFSCall; Ev_handle2fd parent; ReleaseTokenFSCall] /\
  object_handle (snd r) = Some object /\
  object_attributes (snd r) = attrs.
Proof.
  intros Hopen Herr r. subst r.
  rewrite (lookup_open_fails _ filename _ errsv object attrs _ _ Hopen Herr).
  repeat split.
Qed.

(** X7.  When the name-lookup primitive fails, whatever the code it
    leaves in [errno], [VFSFSAL_lookup] hands back that code mapped by
    [posix2fsal_error] as major and the code itself as minor; the token is
    released and the descriptor closed, in that order, before it returns. *)
Theorem lookup_name_failure_maps_errno parent filename context errsv object attrs
    status parentfd e buffstat rc' e' found :
  fsal_internal_handle2fd context parent O_RDONLY = (status, parentfd) ->
  FSAL_IS_ERROR status = false ->
  fstat parentfd = (0, e, buffstat) ->
  posix2fsal_type (st_mode buffstat) = FSAL_TYPE_DIR ->
  FSAL_IS_ERROR (fsal_internal_testAccess context FSAL_X_OK buffstat) = false ->
  vfs_name_by_handle_at parentfd (name filename)
    (with_handle_bytes VFS_HANDLE_LEN (data_vfs_handle object)) = (rc', e', found) ->
  rc' <> 0 ->
  let r := call (VFSFSAL_lookup (Some parent) (Some filename) (Some context) errsv)
                (Some object) attrs in
  fst r = mk_status (posix2fsal_error e') e' /\
  exists before,
    calls (snd r) =
    before ++ [Ev_name_by_handle_at parentfd (name filename);
               ReleaseTokenFSCall; Ev_close parentfd].
Proof.
  intros Hopen Hlive Hstat Hdir Hacc Hname Hrc' r. subst r.
  rewrite (lookup_name_fails _ filename _ errsv object attrs _ _
             Hopen Hlive _ _ _ Hstat eq_refl Hdir Hacc _ _ _ Hname Hrc').
  split; [reflexivity |].
  exists (statted parent parentfd ++ [Ev_testAccess buffstat; TakeTokenFSCall]).
  cbn [snd calls]. rewrite <- app_assoc. reflexivity.
Qed.

(** X8.  If [VFSFSAL_lookup], given a parent and a name, hands back a
    status that is not an error and [fstat] did not fail, then the parent
    opened, it is a directory, the access check let the caller in, and the
    output cell holds the handle the name-lookup primitive wrote; that
    primitive returned 0, unless it failed with a code that
    [posix2fsal_error] maps to ERR_FSAL_NO_ERROR. *)
Theorem lookup_success_means parent filename context errsv object attrs
    status parentfd e buffstat rc' e' found :
  fsal_internal_handle2fd context parent O_RDONLY = (status, parentfd) ->
  fstat parentfd = (0, e, buffstat) ->
  vfs_name_by_handle_at parentfd (name filename)
    (with_handle_bytes VFS_HANDLE_LEN (data_vfs_handle object)) = (rc', e', found) ->
  let r := call (VFSFSAL_lookup (Some parent) (Some filename) (Some context) errsv)
                (Some object) attrs in
  FSAL_IS_ERROR (fst r) = false ->
  FSAL_IS_ERROR status = false /\
  posix2fsal_type (st_mode buffstat) = FSAL_TYPE_DIR /\
  FSAL_IS_ERROR (fsal_internal_testAccess context FSAL_X_OK buffstat) = false /\
  object_handle (snd r) = Some (mk_handle found) /\
  (rc' = 0 \/ posix2fsal_error e' = ERR_FSAL_NO_ERROR).
Proof.
  intros Hopen Hstat Hname r. subst r.
  pattern (call (VFSFSAL_lookup (Some parent) (Some filename) (Some context) errsv)
                (Some object) attrs).
  apply (lookup_by_exit errsv attrs _ parent filename context object
           _ _ _ _ _ _ _ _ Hopen Hstat Hname); cbn [fst snd object_handle].
  - intros Herr Hok. congruence.
  - intros _ Hrc. now elim Hrc.
  - intros _ _ _ Hok. exfalso.
    destruct (posix2fsal_type (st_mode buffstat)); discriminate Hok.
  - intros _ _ _ Hden Hok. congruence.
  - intros Hlive _ Hdir Hacc _ Hok. repeat split; try assumption.
    right. unfold FSAL_IS_ERROR in Hok. cbn [major] in Hok.
    destruct (posix2fsal_error e'); try discriminate Hok. reflexivity.
  - intros Hlive _ Hdir Hacc Hrc' _. repeat split; try assumption. now left.
Qed.

End Exits.

Section PathExits.
Context {C : Collaborators}.

(** X9.  If [VFSFSAL_lookupPath] hands back a status that is not an
    error, then none of its pointers was null, the path begins with a
    slash, [fsal_internal_Path2Handle] succeeded on it, and the output
    cell holds the handle that function produced. *)
Theorem lookupPath_success_means p_path pc cell attrs :
  let r := call (VFSFSAL_lookupPath p_path pc) cell attrs in
  FSAL_IS_ERROR (fst r) = false ->
  exists pth context object,
    p_path = Some pth /\ pc = Some context /\ cell = Some object /\
    first_char pth = "/"%char /\
    FSAL_IS_ERROR (fst (fsal_internal_Path2Handle context pth object)) = false /\
    fst r = mk_status ERR_FSAL_NO_ERROR 0 /\
    object_handle (snd r) = Some (snd (fsal_internal_Path2Handle context pth object)).
Proof.
  intros r. subst r. by_path_exit; cbn [fst snd object_handle].
  - discriminate.
  - discriminate.
  - intros pth context object status found _ _ _ _ _ Herr Hok. congruence.
  - intros pth context object status found -> -> -> Habs Hwalk Hok _.
    exists pth, context, object. rewrite Hwalk. repeat split; assumption.
Qed.

(** X10.  A path that does not begin with a slash, the empty path
    included, makes [VFSFSAL_lookupPath] hand back ERR_FSAL_INVAL before
    anything is called or written. *)
Theorem lookupPath_rejects_relative pth context object attrs :
  (forall rest, path pth <> String "/"%char rest) ->
  call (VFSFSAL_lookupPath (Some pth) (Some context)) (Some object) attrs =
  (mk_status ERR_FSAL_INVAL 0, entry_frame (Some object) attrs).
Proof.
  intros Hrel. apply lookupPath_relative.
  unfold first_char. destruct (path pth) as [| c rest] eqn:Hp.
  - discriminate.
  - intros ->. now apply (Hrel rest).
Qed.

(** X11.  When [fsal_internal_Path2Handle] fails, [VFSFSAL_lookupPath]
    hands back its status as it is and fetches no attributes; the output
    cell holds whatever that function left in the handle. *)
Theorem lookupPath_failure_propagates pth context object attrs status found :
  first_char pth = "/"%char ->
  fsal_internal_Path2Handle context pth object = (status, found) ->
  FSAL_IS_ERROR status = true ->
  let r := call (VFSFSAL_lookupPath (Some pth) (Some context)) (Some object) attrs in
  fst r = status /\
  calls (snd r) = [Ev_Path2Handle pth] /\
  object_handle (snd r) = Some found /\
  object_attributes (snd r) = attrs.
Proof.
  intros Habs Hwalk Herr r. subst r.
  rewrite (lookupPath_fails _ _ _ attrs _ _ Habs Hwalk Herr). repeat split.
Qed.

(** X12.  The unassigned local [errsv] is read on one exit only: when the
    parent cannot be opened, or [fstat] does not fail, the whole result of
    [VFSFSAL_lookup] is the same whatever [errsv] holds. *)
Theorem lookup_ignores_errsv_unless_fstat_fails parent filename context object attrs
    status parentfd rc e buffstat errsv1 errsv2 :
  fsal_internal_handle2fd context parent O_RDONLY = (status, parentfd) ->
  fstat parentfd = (rc, e, buffstat) ->
  FSAL_IS_ERROR status = true \/ rc = 0 ->
  call (VFSFSAL_lookup (Some parent) (Some filename) (Some context) errsv1)
       (Some object) attrs =
  call (VFSFSAL_lookup (Some parent) (Some filename) (Some context) errsv2)
       (Some object) attrs.
Proof.
  intros Hopen Hstat Hcase.
  destruct (vfs_name_by_handle_at parentfd (name filename)
              (with_handle_bytes VFS_HANDLE_LEN (data_vfs_handle object)))
    as [[rc' e'] found] eqn:Hname.
  pattern (call (VFSFSAL_lookup (Some parent) (Some filename) (Some context) errsv1)
                (Some object) attrs).
  apply (lookup_by_exit errsv1 attrs _ parent filename context object
           _ _ _ _ _ _ _ _ Hopen Hstat Hname).
  - intros Herr. symmetry.
    apply (lookup_open_fails _ filename _ errsv2 object attrs _ _ Hopen Herr).
  - intros Hlive Hrc. destruct Hcase; congruence.
  - intros Hlive Hrc Hkind. symmetry.
    apply (lookup_wrong_kind _ filename _ errsv2 object attrs _ _
             Hopen Hlive _ _ _ Hstat Hrc Hkind).
  - intros Hlive Hrc Hdir Hden. symmetry.
    apply (lookup_denied _ filename _ errsv2 object attrs _ _
             Hopen Hlive _ _ _ Hstat Hrc Hdir Hden).
  - intros Hlive Hrc Hdir Hacc Hrc'. symmetry.
    apply (lookup_name_fails _ filename _ errsv2 object attrs _ _
             Hopen Hlive _ _ _ Hstat Hrc Hdir Hacc _ _ _ Hname Hrc').
  - intros Hlive Hrc Hdir Hacc Hrc'. symmetry.
    apply (lookup_found _ filename _ errsv2 object attrs _ _
             Hopen Hlive _ _ _ Hstat Hrc Hdir Hacc _ _ _ Hname Hrc').
Qed.

Lemma attrs_after_success h context a :
  FSAL_IS_ERROR (fst (VFSFSAL_getattrs h context a)) = false ->
  attrs_after h context (Some a) = Some (snd (VFSFSAL_getattrs h context a)).
Proof.
  unfold attrs_after. destruct (VFSFSAL_getattrs h context a) as [status a'].
  cbn [fst snd]. intros ->. reflexivity.
Qed.

(** X14.  When the attribute fetch succeeds, the caller's attribute
    structure holds exactly what [VFSFSAL_getattrs] produced for the
    handle handed back, mask included, in the three places that fetch
    attributes: the root and the name lookup of [VFSFSAL_lookup], and
    [VFSFSAL_lookupPath]. *)
Theorem attribute_success_is_passed_on context object a :
  (forall errsv,
     let root := mk_handle (root_handle (export_context context)) in
     let r := call (VFSFSAL_lookup None None (Some context) errsv)
                   (Some object) (Some a) in
     FSAL_IS_ERROR (fst (VFSFSAL_getattrs root context a)) = false ->
     object_handle (snd r) = Some root /\
     object_attributes (snd r) = Some (snd (VFSFSAL_getattrs root context a))) /\
  (forall parent filename errsv status parentfd e buffstat e' found,
     let r := call (VFSFSAL_lookup (Some parent) (Some filename) (Some context) errsv)
                   (Some object) (Some a) in
     fsal_internal_handle2fd context parent O_RDONLY = (status, parentfd) ->
     FSAL_IS_ERROR status = false ->
     fstat parentfd = (0, e, buffstat) ->
     posix2fsal_type (st_mode buffstat) = FSAL_TYPE_DIR ->
     FSAL_IS_ERROR (fsal_internal_testAccess context FSAL_X_OK buffstat) = false ->
     vfs_name_by_handle_at parentfd (name filename)
       (with_handle_bytes VFS_HANDLE_LEN (data_vfs_handle object)) =
       (0, e', found) ->
     FSAL_IS_ERROR (fst (VFSFSAL_getattrs (mk_handle found) context a)) = false ->
     object_handle (snd r) = Some (mk_handle found) /\
     object_attributes (snd r) =
       Some (snd (VFSFSAL_getattrs (mk_handle found) context a))) /\
  (forall pth status found,
     let r := call (VFSFSAL_lookupPath (Some pth) (Some context))
                   (Some object) (Some a) in
     first_char pth = "/"%char ->
     fsal_internal_Path2Handle context pth object = (status, found) ->
     FSAL_IS_ERROR status = false ->
     FSAL_IS_ERROR (fst (VFSFSAL_getattrs found context a)) = false ->
     object_handle (snd r) = Some found /\
     object_attributes (snd r) = Some (snd (VFSFSAL_getattrs found context a))).
Proof.
  split; [| split].
  - intros errsv root r Hattr. subst r. rewrite lookup_root_path. fold root.
    split; [reflexivity | now apply attrs_after_success].
  - intros parent filename errsv status parentfd e buffstat e' found r
           Hopen Hlive Hstat Hdir Hacc Hname Hattr. subst r.
    rewrite (lookup_found _ filename _ errsv object (Some a) _ _
               Hopen Hlive _ _ _ Hstat eq_refl Hdir Hacc _ _ _ Hname eq_refl).
    split; [reflexivity | now apply attrs_after_success].
  - intros pth status found r Habs Hwalk Hok Hattr. subst r.
    rewrite (lookupPath_found _ _ object (Some a) _ _ Habs Hwalk Hok).
    split; [reflexivity | now apply attrs_after_success].
Qed.

End PathExits.

(** ** These theorems on the fixture *)

(** Find an event in a log that computes. *)
Ltac find_event := simpl; repeat (first [left; reflexivity | right]).

Section MoreRuns.
Import Fixture.
#[local] Existing Instance Fixture.export.

(** User 0 finds "etc" in the root: the lookup ran on descriptor 101. *)
Lemma name_lookup_needs_access_witness :
  exists context,
    Some (context_of 0) = Some context /\
    posix2fsal_type (st_mode (snd (fstat 101))) = FSAL_TYPE_DIR /\
    FSAL_IS_ERROR
      (fsal_internal_testAccess context FSAL_X_OK (snd (fstat 101))) = false.
Proof.
  refine (name_lookup_needs_access (Some (handle_of 1)) (Some (mk_name "etc"))
            (Some (context_of 0)) 0 (Some blank) None 101 "etc" _).
  find_event.
Defined.

Lemma close_only_what_was_opened_witness :
  exists parent context,
    Some (handle_of 1) = Some parent /\ Some (context_of 0) = Some context /\
    snd (fsal_internal_handle2fd context parent O_RDONLY) = 101 /\
    FSAL_IS_ERROR (fst (fsal_internal_handle2fd context parent O_RDONLY)) = false.
Proof.
  refine (close_only_what_was_opened (Some (handle_of 1)) (Some (mk_name "etc"))
            (Some (context_of 0)) 0 (Some blank) None 101 _).
  find_event.
Defined.

(** User 1000 is refused in the root; nobody finds "/missing". *)
Lemma error_leaves_attributes_witness :
  object_attributes (snd (lookup_as 1000 1 "etc" 0 (Some readable))) =
    Some readable /\
  object_attributes (snd (lookupPath_as 0 "/missing" (Some readable))) =
    Some readable.
Proof.
  split.
  - exact (proj1 (error_leaves_attributes (Some (handle_of 1))
                    (Some (mk_name "etc")) None (Some (context_of 1000)) 0
                    (Some blank) (Some readable)) eq_refl).
  - exact (proj2 (error_leaves_attributes None None (Some (mk_path "/missing"))
                    (Some (context_of 0)) 0 (Some blank) (Some readable)) eq_refl).
Defined.

Lemma attributes_fetched_for_result_only_witness :
  (fst (lookup_as 0 1 "etc" 0 (Some readable)) = mk_status ERR_FSAL_NO_ERROR 0 /\
   object_handle (snd (lookup_as 0 1 "etc" 0 (Some readable))) = Some (handle_of 3) /\
   Some readable <> None) /\
  (fst (lookupPath_as 0 "/etc" (Some readable)) = mk_status ERR_FSAL_NO_ERROR 0 /\
   object_handle (snd (lookupPath_as 0 "/etc" (Some readable))) = Some (handle_of 3) /\
   Some readable <> None).
Proof.
  split.
  - refine (proj1 (attributes_fetched_for_result_only (Some (handle_of 1))
                     (Some (mk_name "etc")) None (Some (context_of 0)) 0
                     (Some blank) (Some readable) (handle_of 3)) _).
    find_event.
  - refine (proj2 (attributes_fetched_for_result_only None None
                     (Some (mk_path "/etc")) (Some (context_of 0)) 0
                     (Some blank) (Some readable) (handle_of 3)) _).
    find_event.
Defined.

(** A handle without bytes does not open: the status is that of the
    failed open, ERR_FSAL_STALE. *)
Lemma lookup_open_failure_propagates_witness :
  fst (call (VFSFSAL_lookup (Some blank) (Some (mk_name "etc"))
               (Some (context_of 0)) 0) (Some blank) None) =
    mk_status ERR_FSAL_STALE ESTALE /\
  calls (snd (call (VFSFSAL_lookup (Some blank) (Some (mk_name "etc"))
                      (Some (context_of 0)) 0) (Some blank) None)) =
    [TakeTokenFSCall; Ev_handle2fd blank; ReleaseTokenFSCall] /\
  object_handle (snd (call (VFSFSAL_lookup (Some blank) (Some (mk_name "etc"))
                              (Some (context_of 0)) 0) (Some blank) None)) =
    Some blank /\
  object_attributes (snd (call (VFSFSAL_lookup (Some blank) (Some (mk_name "etc"))
                                  (Some (context_of 0)) 0) (Some blank) None)) =
    None.
Proof.
  exact (lookup_open_failure_propagates blank (mk_name "etc") (context_of 0) 0
           blank None _ (-1) eq_refl eq_refl).
Defined.

Lemma lookup_name_failure_maps_errno_witness :
  fst (lookup_as 0 1 "tmp" 0 None) = mk_status ERR_FSAL_NOENT ENOENT /\
  exists before,
    calls (snd (lookup_as 0 1 "tmp" 0 None)) =
    before ++ [Ev_name_by_handle_at 101 "tmp"; ReleaseTokenFSCall; Ev_close 101].
Proof.
  refine (lookup_name_failure_maps_errno (handle_of 1) (mk_name "tmp")
            (context_of 0) 0 blank None _ 101 0 _ (-1) ENOENT _
            eq_refl eq_refl eq_refl eq_refl eq_refl eq_refl _).
  discriminate.
Defined.

Lemma lookup_success_means_witness :
  FSAL_IS_ERROR (mk_status ERR_FSAL_NO_ERROR 0) = false /\
  posix2fsal_type (st_mode (mk_stat (S_IFDIR + 448) 1 0 0)) = FSAL_TYPE_DIR /\
  FSAL_IS_ERROR (fsal_internal_testAccess (context_of 0) FSAL_X_OK
                   (mk_stat (S_IFDIR + 448) 1 0 0)) = false /\
  object_handle (snd (lookup_as 0 1 "etc" 0 None)) = Some (handle_of 3) /\
  (0 = 0 \/ posix2fsal_error 0 = ERR_FSAL_NO_ERROR).
Proof.
  exact (lookup_success_means (handle_of 1) (mk_name "etc") (context_of 0) 0
           blank None _ 101 0 _ 0 0 _ eq_refl eq_refl eq_refl eq_refl).
Defined.

Lemma lookupPath_success_means_witness :
  exists pth context object,
    Some (mk_path "/etc") = Some pth /\ Some (context_of 0) = Some context /\
    Some blank = Some object /\
    first_char pth = "/"%char /\
    FSAL_IS_ERROR (fst (fsal_internal_Path2Handle context pth object)) = false /\
    fst (lookupPath_as 0 "/etc" None) = mk_status ERR_FSAL_NO_ERROR 0 /\
    object_handle (snd (lookupPath_as 0 "/etc" None)) =
      Some (snd (fsal_internal_Path2Handle context pth object)).
Proof.
  exact (lookupPath_success_means (Some (mk_path "/etc")) (Some (context_of 0))
           (Some blank) None eq_refl).
Defined.

(** "etc" is not absolute. *)
Lemma lookupPath_rejects_relative_witness :
  lookupPath_as 0 "etc" None =
  (mk_status ERR_FSAL_INVAL 0, entry_frame (Some blank) None).
Proof.
  refine (lookupPath_rejects_relative (mk_path "etc") (context_of 0) blank None _).
  intros rest H. discriminate H.
Defined.

Lemma lookupPath_failure_propagates_witness :
  fst (lookupPath_as 0 "/missing" None) = mk_status ERR_FSAL_NOENT ENOENT /\
  calls (snd (lookupPath_as 0 "/missing" None)) =
    [Ev_Path2Handle (mk_path "/missing")] /\
  object_handle (snd (lookupPath_as 0 "/missing" None)) = Some blank /\
  object_attributes (snd (lookupPath_as 0 "/missing" None)) = None.
Proof.
  exact (lookupPath_failure_propagates (mk_path "/missing") (context_of 0) blank
           None _ _ eq_refl eq_refl eq_refl).
Defined.

Lemma lookup_ignores_errsv_unless_fstat_fails_witness :
  lookup_as 0 1 "etc" 0 None = lookup_as 0 1 "etc" 13 None.
Proof.
  exact (lookup_ignores_errsv_unless_fstat_fails (handle_of 1) (mk_name "etc")
           (context_of 0) blank None _ 101 0 0 _ 0 13
           eq_refl eq_refl (or_intror eq_refl)).
Defined.

(** "etc" is found in the root: descriptor 101 is closed once. *)
Lemma lookup_closes_unless_denied_witness :
  close_count 101 (calls (snd (lookup_as 0 1 "etc" 0 None))) = 1%nat.
Proof.
  exact (lookup_closes_unless_denied (handle_of 1) (mk_name "etc") (context_of 0)
           0 blank None _ 101 0 0 _ eq_refl eq_refl eq_refl).
Defined.

Lemma attribute_success_is_passed_on_witness :
  (object_handle (snd (call (VFSFSAL_lookup None None (Some (context_of 0)) 0)
                            (Some blank) (Some readable))) = Some (handle_of 1) /\
   object_attributes (snd (call (VFSFSAL_lookup None None (Some (context_of 0)) 0)
                                (Some blank) (Some readable))) =
     Some (mk_attrs 1 [1])) /\
  (object_handle (snd (lookup_as 0 1 "etc" 0 (Some readable))) = Some (handle_of 3) /\
   object_attributes (snd (lookup_as 0 1 "etc" 0 (Some readable))) =
     Some (mk_attrs 1 [3])) /\
  (object_handle (snd (lookupPath_as 0 "/etc" (Some readable))) = Some (handle_of 3) /\
   object_attributes (snd (lookupPath_as 0 "/etc" (Some readable))) =
     Some (mk_attrs 1 [3])).
Proof.
  destruct (attribute_success_is_passed_on (context_of 0) blank readable)
    as (Root & Name & Path).
  split; [| split].
  - exact (Root 0 eq_refl).
  - exact (Name (handle_of 1) (mk_name "etc") 0 _ 101 0 _ 0 _
             eq_refl eq_refl eq_refl eq_refl eq_refl eq_refl eq_refl).
  - exact (Path (mk_path "/etc") _ _ eq_refl eq_refl eq_refl eq_refl).
Defined.

End MoreRuns.
